(** * Gloria: the serialization round-trip checker

    A shallow embedding of [gloria/tests/test_serialize.py]: the recursive
    comparison [compare_class_instances] with the numpy and pandas
    comparisons it relies on, the two registry tests, and the codec the
    tests exercise ([Gloria.to_json] / [Gloria.from_json]). *)

From Stdlib Require Import Ascii String QArith Qabs Qminmax.
From stdpp Require Import gmap strings list.

Open Scope string_scope.

#[local] Set Warnings "-clear-no-such-hyp,-register-all".

(** ** Exceptions and outcomes

    The checker is written in assertion form: it returns [None] or raises.
    [Passed] is a normal return, [Raised e] an exception of class [e]. *)

Inductive exn :=
| AssertionError | AttributeError | KeyError | IndexError | TypeError
| ValueError | RecursionError.

Inductive outcome := Passed | Raised (e : exn).

#[global] Instance exn_eq_dec : EqDecision exn.
Proof. solve_decision. Defined.
#[global] Instance outcome_eq_dec : EqDecision outcome.
Proof. solve_decision. Defined.

(** [for x in l: body(x)], stopping at the first exception. *)
Fixpoint for_each {A} (l : list A) (body : A → outcome) : outcome :=
  match l with
  | [] => Passed
  | x :: l' => match body x with
               | Passed => for_each l' body
               | Raised e => Raised e
               end
  end.

(** [assert b] *)
Definition assert (b : bool) : outcome :=
  if b then Passed else Raised AssertionError.

(** Sequencing of two statements. *)
Definition and_then (o : outcome) (k : outcome) : outcome :=
  match o with Passed => k | Raised e => Raised e end.

(** ** Python scalars *)

Inductive scalar :=
| SNone
| SBool (b : bool)
| SInt (z : Z)
| SFloat (q : Q)      (* a finite float *)
| SNaN                (* float('nan') *)
| SStr (s : string).

(** The value of a finite number. The numeric tower: [bool], [int] and
    [float] compare by value. *)
Definition as_number (s : scalar) : option Q :=
  match s with
  | SBool b => Some (if b then 1%Q else 0%Q)
  | SInt z => Some (inject_Z z)
  | SFloat q => Some q
  | SNone | SNaN | SStr _ => None
  end.

(** Python's [==] on scalars; [nan] is equal to nothing, itself
    included. *)
Definition scalar_eqb (a b : scalar) : bool :=
  match as_number a, as_number b with
  | Some x, Some y => Qeq_bool x y
  | None, None =>
      match a, b with
      | SNone, SNone => true
      | SStr s, SStr t => String.eqb s t
      | _, _ => false
      end
  | _, _ => false
  end.

(** ** numpy *)

(** An array element: a finite number or [nan]. *)
Inductive number := Finite (q : Q) | NaN.

(** A scalar as an array element. *)
Definition as_element (s : scalar) : option number :=
  match s with
  | SNaN => Some NaN
  | _ => Finite <$> as_number s
  end.

(** The dtype kinds numpy does arithmetic on. *)
Definition is_numeric_kind (k : ascii) : bool :=
  bool_decide (k ∈ ["f"; "i"; "u"; "b"]%char).

(** A dtype: the kind character ([i], [u], [f], [b], [M], [O], ...) and
    the storage width in bytes. *)
Record dtype := { kind : ascii; itemsize : nat }.

#[global] Instance dtype_eq_dec : EqDecision dtype.
Proof. solve_decision. Defined.

(** An n-dimensional numeric array: shape, element type and the elements
    in row-major order. *)
Record ndarray := { shape : list nat; adtype : dtype; data : list number }.

Definition float64 : dtype := {| kind := "f"; itemsize := 8 |}.
Definition float32 : dtype := {| kind := "f"; itemsize := 4 |}.
Definition int64 : dtype := {| kind := "i"; itemsize := 8 |}.
Definition int32 : dtype := {| kind := "i"; itemsize := 4 |}.

(** Default tolerances of [np.isclose] and of the pandas assertions. *)
Definition rtol : Q := 0.00001.
Definition atol : Q := 0.00000001.

(** [np.isclose(a, b)]: [|a - b| <= atol + rtol * |b|]. *)
Definition isclose (a b : Q) : bool :=
  Qle_bool (Qabs (a - b)) (atol + rtol * Qabs b).

(** [np.isclose] on elements: [nan] is close to nothing ([equal_nan] is
    left at [False]). *)
Definition element_isclose (a b : number) : bool :=
  match a, b with
  | Finite x, Finite y => isclose x y
  | _, _ => false
  end.

(** [==] on elements. *)
Definition element_eqb (a b : number) : bool :=
  match a, b with
  | Finite x, Finite y => Qeq_bool x y
  | _, _ => false
  end.

Definition size_of (sh : list nat) : nat := fold_right Nat.mul 1%nat sh.

(** Broadcasting of two shapes, aligned at the trailing dimension. *)
Fixpoint broadcast_rev (s t : list nat) : option (list nat) :=
  match s, t with
  | [], _ => Some t
  | _, [] => Some s
  | a :: s', b :: t' =>
      r ← broadcast_rev s' t';
      if (a =? b)%nat then Some (a :: r)
      else if (a =? 1)%nat then Some (b :: r)
      else if (b =? 1)%nat then Some (a :: r)
      else None
  end.

Definition broadcast_shapes (s t : list nat) : option (list nat) :=
  reverse <$> broadcast_rev (reverse s) (reverse t).

(** [k] consecutive chunks of [n] elements. *)
Fixpoint chunks {A} (n k : nat) (l : list A) : list (list A) :=
  match k with
  | O => []
  | S k' => take n l :: chunks n k' (drop n l)
  end.

(** The elements of an array of shape [s] viewed at the broadcast shape
    [t]. *)
Fixpoint broadcast_to {A} (s t : list nat) (d : list A) {struct t}
  : option (list A) :=
  match t with
  | [] => match s with [] => Some d | _ :: _ => None end
  | b :: t' =>
      if (length s <? length t)%nat then
        r ← broadcast_to s t' d; Some (concat (replicate b r))
      else
        match s with
        | [] => None
        | a :: s' =>
            if (a =? b)%nat then
              rs ← mapM (broadcast_to s' t') (chunks (size_of s') a d);
              Some (concat rs)
            else if (a =? 1)%nat then
              r ← broadcast_to s' t' d; Some (concat (replicate b r))
            else None
        end
  end.

Fixpoint forallb2 {A B} (f : A → B → bool) (l : list A) (k : list B) : bool :=
  match l, k with
  | [], [] => true
  | x :: l', y :: k' => f x y && forallb2 f l' k'
  | _, _ => false
  end.

(** Both operands at their common shape; [None] when the shapes do not
    broadcast (numpy raises [ValueError]). *)
Definition broadcast_pair (a b : ndarray)
  : option (list number * list number) :=
  sh ← broadcast_shapes (shape a) (shape b);
  da ← broadcast_to (shape a) sh (data a);
  db ← broadcast_to (shape b) sh (data b);
  Some (da, db).

(** [np.allclose(a, b)] on two numeric arrays. *)
Definition allclose (a b : ndarray) : option bool :=
  p ← broadcast_pair a b; Some (forallb2 element_isclose p.1 p.2).

(** [bool(a == b)] on two arrays: only a one-element result has a truth
    value. *)
Definition array_eq_truth (a b : ndarray) : outcome :=
  match broadcast_pair a b with
  | Some ([x], [y]) => assert (element_eqb x y)
  | _ => Raised ValueError
  end.

(** A zero-dimensional array and a vector of elements. *)
Definition element_array (x : number) : ndarray :=
  {| shape := []; adtype := float64; data := [x] |}.

Definition elements_array (d : dtype) (xs : list number) : ndarray :=
  {| shape := [length xs]; adtype := d; data := xs |}.

(** The same for finite numbers. *)
Definition scalar_array (q : Q) : ndarray := element_array (Finite q).

Definition vector_array (qs : list Q) : ndarray :=
  elements_array float64 (Finite <$> qs).

(** ** pandas *)

Record Series := {
  sr_name : option string;
  sr_dtype : dtype;
  sr_index : list scalar;
  sr_values : list scalar
}.

Record Column := { col_dtype : dtype; col_values : list scalar }.

Record DataFrame := {
  df_index : list scalar;
  df_columns : list (string * Column)
}.

(** [math.isclose(a, b, rel_tol=rtol, abs_tol=atol)], the test pandas
    applies to two real numbers when the comparison is not exact. *)
Definition math_isclose (a b : Q) : bool :=
  Qle_bool (Qabs (a - b)) (Qmax (rtol * Qmax (Qabs a) (Qabs b)) atol).

(** Equality of two labels or cells for the pandas assertions: as [==],
    but two [nan] at the same place are equal. *)
Definition pd_equal (a b : scalar) : bool :=
  match a, b with
  | SNaN, SNaN => true
  | _, _ => scalar_eqb a b
  end.

Definition cell_equal (exact : bool) (a b : scalar) : bool :=
  if exact then pd_equal a b
  else match as_number a, as_number b with
       | Some x, Some y => math_isclose x y
       | _, _ => pd_equal a b
       end.

Definition is_integer_kind (d : dtype) : bool :=
  bool_decide (kind d = "i"%char) || bool_decide (kind d = "u"%char).

(** With [check_exact] left at its default the values are compared
    exactly when either side has an integer dtype and within the
    tolerance otherwise. *)
Definition values_equal (dl dr : dtype) (l r : list scalar) : bool :=
  forallb2 (cell_equal (is_integer_kind dl || is_integer_kind dr)) l r.

Definition index_equal (l r : list scalar) : bool := forallb2 pd_equal l r.

(** [assert_series_equal(left, right, check_dtype=...)] on two Series. *)
Definition series_equal (check_dtype : bool) (l r : Series) : bool :=
  bool_decide (length (sr_values l) = length (sr_values r))
  && index_equal (sr_index l) (sr_index r)
  && (negb check_dtype || bool_decide (sr_dtype l = sr_dtype r))
  && values_equal (sr_dtype l) (sr_dtype r) (sr_values l) (sr_values r)
  && bool_decide (sr_name l = sr_name r).

Definition column_equal (check_dtype : bool)
    (l r : string * Column) : bool :=
  String.eqb l.1 r.1
  && (negb check_dtype || bool_decide (col_dtype l.2 = col_dtype r.2))
  && values_equal (col_dtype l.2) (col_dtype r.2)
       (col_values l.2) (col_values r.2).

(** [assert_frame_equal(left, right, check_dtype=...)] on two frames:
    the index, the column labels in order, and each column. *)
Definition frame_equal (check_dtype : bool) (l r : DataFrame) : bool :=
  index_equal (df_index l) (df_index r)
  && forallb2 (column_equal check_dtype) (df_columns l) (df_columns r).

(** [frame[col].dtype.kind]: a label that is absent raises [KeyError], a
    label carried by several columns selects a frame, which has no
    [dtype]. *)
Definition column_kind (f : DataFrame) (col : string)
  : exn + ascii :=
  match filter (λ c, c.1 = col) (df_columns f) with
  | [] => inl KeyError
  | [c] => inr (kind (col_dtype c.2))
  | _ => inl AttributeError
  end.

(** ** Classes, instances and attribute values *)

(** A class: its name, its proper ancestors and, for a pydantic model,
    the declared fields ([cls.model_fields]). *)
Record pyclass := {
  cname : string;
  bases : list string;
  model_fields : list string
}.

(** An entry of a parameter dictionary. *)
Inductive param := PScalar (s : scalar) | PArray (a : ndarray).

(** Attribute values, and instances: the class, [model_extra] ([None]
    unless the model allows extra fields) and [__dict__]. *)
Inductive value :=
| VScalar (s : scalar)
| VList (l : list scalar)
| VArray (a : ndarray)
| VSeries (s : Series)
| VFrame (f : DataFrame)
| VDict (d : list (string * param))
| VObj (o : instance)
with instance :=
| Instance (c : pyclass) (extra : option (list (string * value)))
    (dict : list (string * value)).

Definition type_of (o : instance) : pyclass :=
  match o with Instance c _ _ => c end.
Definition model_extra (o : instance) : option (list (string * value)) :=
  match o with Instance _ e _ => e end.
Definition dict_of (o : instance) : list (string * value) :=
  match o with Instance _ _ d => d end.

(** Lookup in an insertion-ordered dictionary. *)
Fixpoint assoc {V} (k : string) (d : list (string * V)) : option V :=
  match d with
  | [] => None
  | (k', v) :: d' => if String.eqb k' k then Some v else assoc k d'
  end.

(** [set(d.keys())] *)
Definition keys {V} (d : list (string * V)) : gset string :=
  list_to_set (d.*1).

Definition subclass_of (c : pyclass) (name : string) : bool :=
  bool_decide (name ∈ cname c :: bases c).

(** [isinstance(o, cls)] for the class called [name]. *)
Definition isinstance (o : instance) (name : string) : bool :=
  subclass_of (type_of o) name.

(** [getattr(o, attr)]: the instance dictionary, then the extra fields of
    a pydantic model. *)
Definition getattr (o : instance) (attr : string) : option value :=
  match assoc attr (dict_of o) with
  | Some v => Some v
  | None =>
      if isinstance o "BaseModel"
      then e ← model_extra o; assoc attr e
      else None
  end.

(** [set(o.model_fields.keys()) | set(o.model_extra.keys())]; [None]
    when an attribute access fails. *)
Definition field_names (o : instance) : option (gset string) :=
  if isinstance o "BaseModel"
  then e ← model_extra o;
       Some (list_to_set (model_fields (type_of o)) ∪ keys e)
  else None.

Definition param_value (p : param) : value :=
  match p with PScalar s => VScalar s | PArray a => VArray a end.

(** [np.asarray(v)] for a numeric operand. *)
Definition frame_asarray (f : DataFrame) : option ndarray :=
  cols ← mapM (λ c : string * Column, mapM as_element (col_values c.2))
         (df_columns f);
  let n := length (df_index f) in
  rows ← mapM (λ i, mapM (λ c : list number, c !! i) cols) (seq 0 n);
  Some {| shape := [n; length cols]; adtype := float64;
          data := concat rows |}.

Definition asarray (v : value) : option ndarray :=
  match v with
  | VArray a => Some a
  | VScalar s => element_array <$> as_element s
  | VList l => elements_array float64 <$> mapM as_element l
  | VSeries s => elements_array (sr_dtype s) <$> mapM as_element (sr_values s)
  | VFrame f => frame_asarray f
  | VDict _ | VObj _ => None
  end.

(** The call [np.allclose(a, v)]: [TypeError] for an operand that is not
    numeric, [ValueError] for shapes that do not broadcast, else the
    answer. *)
Definition call_allclose (a : ndarray) (v : value) : exn + bool :=
  match asarray v with
  | None => inl TypeError
  | Some d =>
      if is_numeric_kind (kind (adtype a))
         && is_numeric_kind (kind (adtype d))
      then match allclose a d with
           | None => inl ValueError
           | Some b => inr b
           end
      else inl TypeError
  end.

(** [v[k]] for a string key. *)
Definition getitem (v : value) (k : string) : exn + value :=
  match v with
  | VDict d => match assoc k d with
               | Some p => inr (param_value p)
               | None => inl KeyError
               end
  | VFrame f =>
      match filter (λ c : string * Column, c.1 = k) (df_columns f) with
      | [] => inl KeyError
      | [c] => inr (VSeries {| sr_name := Some k; sr_dtype := col_dtype c.2;
                               sr_index := df_index f;
                               sr_values := col_values c.2 |})
      | cs => inr (VFrame {| df_index := df_index f; df_columns := cs |})
      end
  | VSeries s =>
      match filter (λ p : scalar * scalar, scalar_eqb p.1 (SStr k) = true)
              (zip (sr_index s) (sr_values s)) with
      | [] => inl KeyError
      | [p] => inr (VScalar p.2)
      | ps => inr (VSeries {| sr_name := sr_name s; sr_dtype := sr_dtype s;
                              sr_index := ps.*1; sr_values := ps.*2 |})
      end
  | VArray _ => inl IndexError
  | VScalar _ | VList _ | VObj _ => inl TypeError
  end.

(** [assert a == d] where neither side is a dictionary. Two instances
    handed to the checker are separately built objects, so the default
    (identity) equality of a plain instance is false. *)
Definition leaf_assert_eq (a d : value) : outcome :=
  match a, d with
  | VSeries _, _ | VFrame _, _ | _, VSeries _ | _, VFrame _ =>
      Raised ValueError
  | VArray x, _ =>
      match asarray d with
      | Some y => array_eq_truth x y
      | None => if (length (data x) =? 1)%nat
                then Raised AssertionError else Raised ValueError
      end
  | _, VArray y =>
      match asarray a with
      | Some x => array_eq_truth x y
      | None => if (length (data y) =? 1)%nat
                then Raised AssertionError else Raised ValueError
      end
  | VScalar x, VScalar y => assert (scalar_eqb x y)
  | VList x, VList y => assert (forallb2 scalar_eqb x y)
  | _, _ => Raised AssertionError
  end.

(** [assert a == d] *)
Definition py_assert_eq (a d : value) : outcome :=
  match a, d with
  | VDict x, VDict y =>
      and_then (assert (length x =? length y)%nat)
        (for_each x (λ kv,
           match assoc kv.1 y with
           | None => Raised AssertionError
           | Some w => leaf_assert_eq (param_value kv.2) (param_value w)
           end))
  | _, _ => leaf_assert_eq a d
  end.

(** Lines 91-95: the loop over [actual_val.items()]. *)
Definition compare_fit_params (items : list (string * param))
    (desired_val : value) : outcome :=
  for_each items (λ kv,
    match getitem desired_val kv.1 with
    | inl e => Raised e
    | inr w =>
        match kv.2 with
        | PArray v =>
            match call_allclose v w with
            | inl e => Raised e
            | inr b => assert b
            end
        | PScalar v => py_assert_eq (VScalar v) w
        end
    end).

(** Lines 74-79: [assert_frame_equal(..., check_dtype=False)] and the
    per-column dtype kind. *)
Definition compare_frames (actual_val : DataFrame) (desired_val : value)
  : outcome :=
  match desired_val with
  | VFrame d =>
      and_then (assert (frame_equal false actual_val d))
        (for_each (df_columns actual_val).*1 (λ col,
           match column_kind actual_val col, column_kind d col with
           | inr ka, inr kd => assert (bool_decide (ka = kd))
           | inl e, _ => Raised e
           | _, inl e => Raised e
           end))
  | _ => Raised AssertionError
  end.

(** Lines 72-73: [assert_series_equal(actual_val, desired_val)]. *)
Definition compare_series (actual_val : Series) (desired_val : value)
  : outcome :=
  match desired_val with
  | VSeries d => assert (series_equal true actual_val d)
  | _ => Raised AssertionError
  end.

Definition backend_exclusions : gset string := {[ "stan_fit"; "model" ]}.

(** Lines 66-98: the body of the loop for one attribute, with the
    recursive call as [rec]. *)
Definition compare_value
    (rec : instance → value → gset string → outcome)
    (attr : string) (actual_val desired_val : value) : outcome :=
  match actual_val with
  | VArray a =>
      match call_allclose a desired_val with
      | inl e => Raised e
      | inr _ => Passed
      end
  | VSeries s => compare_series s desired_val
  | VFrame f => compare_frames f desired_val
  | VObj o =>
      if isinstance o "BaseModel" then rec o desired_val ∅
      else if isinstance o "ModelBackendBase"
      then rec o desired_val backend_exclusions
      else if String.eqb attr "fit_params" then Raised AttributeError
      else py_assert_eq actual_val desired_val
  | VDict items =>
      if String.eqb attr "fit_params"
      then compare_fit_params items desired_val
      else py_assert_eq actual_val desired_val
  | VScalar _ | VList _ =>
      if String.eqb attr "fit_params" then Raised AttributeError
      else py_assert_eq actual_val desired_val
  end.

(** Lines 49-59: the two attribute-name sets. *)
Definition attribute_sets (actual desired : instance)
    (ignore_attributes : gset string) : option (gset string * gset string) :=
  if isinstance actual "BaseModel" then
    a ← field_names actual;
    d ← field_names desired;
    Some (a ∖ ignore_attributes, d ∖ ignore_attributes)
  else
    Some (keys (dict_of actual) ∖ ignore_attributes,
          keys (dict_of desired) ∖ ignore_attributes).

(** The loop of lines 65-98 over a list of attribute names. *)
Definition compare_attributes
    (rec : instance → value → gset string → outcome)
    (actual desired : instance) (attrs : list string) : outcome :=
  for_each attrs (λ attr,
    match getattr actual attr with
    | None => Raised AttributeError
    | Some actual_val =>
        match getattr desired attr with
        | None => Raised AttributeError
        | Some desired_val => compare_value rec attr actual_val desired_val
        end
    end).

(** [compare_class_instances(actual, desired, ignore_attributes)]. The
    fuel is the depth of recursion Python still allows. *)
Fixpoint compare_class_instances (fuel : nat) (actual : instance)
    (desired : value) (ignore_attributes : gset string) : outcome :=
  match fuel with
  | O => Raised RecursionError
  | S fuel' =>
      match desired with
      | VObj desired =>
          if negb (isinstance actual (cname (type_of desired)))
          then Raised AssertionError
          else
            match attribute_sets actual desired ignore_attributes with
            | None => Raised AttributeError
            | Some (attributes, desired_attributes) =>
                if bool_decide (attributes = desired_attributes)
                then compare_attributes (compare_class_instances fuel')
                       actual desired (elements attributes)
                else Raised AssertionError
            end
      | _ => Raised AssertionError
      end
  end.

(** ** The registry tests (lines 122-153)

    [GLORIA_ATTRIBUTES] and [BACKEND_ATTRIBUTES] are dictionaries of the
    serializer; the tests read their keys only. *)

Definition test_gloria_attribute_equivalence {V}
    (GLORIA_ATTRIBUTES : list (string * V)) (fitted_model : instance)
  : outcome :=
  let serialize_attributes := keys GLORIA_ATTRIBUTES in
  match field_names fitted_model with
  | None => Raised AttributeError
  | Some model_attributes =>
      assert (bool_decide (serialize_attributes = model_attributes))
  end.

Definition test_backend_attribute_equivalence {V}
    (BACKEND_ATTRIBUTES : list (string * V)) (fitted_model : instance)
  : outcome :=
  let serialize_attributes := keys BACKEND_ATTRIBUTES in
  let ignore_attributes : gset string := {[ "stan_fit"; "model" ]} in
  match getattr fitted_model "model_backend" with
  | Some (VObj model_backend) =>
      let backend_attributes :=
        keys (dict_of model_backend) ∖ ignore_attributes in
      assert (bool_decide (serialize_attributes = backend_attributes))
  | _ => Raised AttributeError
  end.

(** ** Sample classes and instances *)

Module Samples.

Definition Base : pyclass :=
  {| cname := "Base"; bases := []; model_fields := [] |}.
Definition Derived : pyclass :=
  {| cname := "Derived"; bases := ["Base"]; model_fields := [] |}.

Definition Config : pyclass :=
  {| cname := "Config"; bases := ["BaseModel"]; model_fields := ["x"] |}.

Definition Backend : pyclass :=
  {| cname := "ModelBackend"; bases := ["ModelBackendBase"];
     model_fields := [] |}.

Definition vec (qs : list Q) : value := VArray (vector_array qs).

Definition with_x (v : value) : instance :=
  Instance Config (Some []) [("x", v)].

Definition with_fit_params (d : list (string * param)) : instance :=
  Instance Backend None [("fit_params", VDict d)].

Definition column (d : dtype) (vs : list scalar) : Column :=
  {| col_dtype := d; col_values := vs |}.

Definition frame (d : dtype) (vs : list scalar) : DataFrame :=
  {| df_index := [SInt 0; SInt 1]; df_columns := [("y", column d vs)] |}.

Definition series (d : dtype) (vs : list scalar) : Series :=
  {| sr_name := Some "y"; sr_dtype := d; sr_index := [SInt 0; SInt 1];
     sr_values := vs |}.

End Samples.

(** ** Notions used to state the properties of the checker *)

(** The attribute names the checker reads off an instance: declared and
    extra fields when the pair is compared as pydantic models, the
    instance dictionary otherwise. *)
Definition attribute_names (pydantic : bool) (o : instance) : gset string :=
  if pydantic
  then list_to_set (model_fields (type_of o)) ∪ keys (default [] (model_extra o))
  else keys (dict_of o).



(** [s.to_frame()] *)
Definition to_frame (s : Series) : DataFrame :=
  {| df_index := sr_index s;
     df_columns := [(default "0" (sr_name s),
                     {| col_dtype := sr_dtype s;
                        col_values := sr_values s |})] |}.

(** Values without [nan]: a scalar, an array element, a numeric array
    and an entry of a parameter dictionary. *)
Definition finite_scalar (s : scalar) : bool :=
  match s with SNaN => false | _ => true end.

Definition finite_element (x : number) : bool :=
  match x with Finite _ => true | NaN => false end.

Definition valid_array (a : ndarray) : bool :=
  is_numeric_kind (kind (adtype a)) && forallb finite_element (data a).

Definition valid_param (p : param) : bool :=
  match p with
  | PScalar s => finite_scalar s
  | PArray a => valid_array a
  end.

Definition is_scalar_param (p : param) : bool :=
  match p with PScalar _ => true | PArray _ => false end.

(** * The codec

    [Gloria.to_json], [Gloria.from_json] and the registries of
    [gloria.utilities.serialize] are called by the tests; the following
    definitions give them as the design document describes them. *)

(** Modelled from the spec: the codec kinds of a registry entry (§3); this
    stands for the values of the dictionaries [GLORIA_ATTRIBUTES] and
    [BACKEND_ATTRIBUTES], which the tests import. *)
Inductive codec_kind :=
| SCALAR | ARRAY | TABULAR | NESTED_ENTITY | PARAMETER_MAP.

#[global] Instance codec_kind_eq_dec : EqDecision codec_kind.
Proof. solve_decision. Defined.

#[global] Instance pyclass_eq_dec : EqDecision pyclass.
Proof. solve_decision. Defined.

(** Modelled from the spec: the error taxonomy of §7 for the serializer
    behind [to_json] and [from_json]; [DepthExceeded] is the recursion
    limit. *)
Inductive codec_error :=
| SchemaMismatch
| UnsupportedType (attr : string)
| MissingAttribute (attr : string)
| UnexpectedAttribute (attr : string)
| DepthExceeded.

(** Modelled from the spec: the outcome of an operation of the
    serializer, an error of §7 or a value; with its sequencing. *)
Definition result (A : Type) : Type := codec_error + A.

(** Modelled from the spec: an operation of the serializer stops at its
    first error (§7). *)
Definition bind_r {A B} (r : result A) (k : A → result B) : result B :=
  match r with inl e => inl e | inr x => k x end.

Notation "'let*' x := r 'in' k" := (bind_r r (λ x, k))
  (at level 10, x pattern, r at level 100, k at level 200).

(** Modelled from the spec: the serializer goes through a list in
    order and stops at the first error (§4.3, §7). *)
Fixpoint mapM_r {A B} (f : A → result B) (l : list A) : result (list B) :=
  match l with
  | [] => inr []
  | x :: l' => let* y := f x in let* ys := mapM_r f l' in inr (y :: ys)
  end.

(** Modelled from the spec: a value that is not there is the error [e]
    of the serializer (§7). *)
Definition of_option {A} (e : codec_error) (o : option A) : result A :=
  match o with Some x => inr x | None => inl e end.

(** Modelled from the spec: the encoded representation of an attribute
    inside a document (§4.2), produced by the serializer behind
    [to_json]: pass-through scalars and sequences, [shape]/[dtype]/[data]
    for arrays, [columns]/[dtypes]/[data] with the index for tables, one
    encoded value per name for parameter maps, and a sub-document with
    its discriminant for a nested entity. *)
Inductive encoded :=
| EPlain (s : scalar)
| ESeq (l : list scalar)
| EArray (shape : list nat) (dtype_name : string) (data : list number)
| ETabular (columns : list string) (dtypes : list string)
    (index : list scalar) (data : list (list scalar))
| EParams (entries : list (string * encoded))
| ENested (discriminant : string) (doc : list (string * encoded)).

(** Modelled from the spec: the document of §3, the output of
    [to_document]. *)
Definition document : Type := list (string * encoded).

(** Modelled from the spec: the name under which the serializer records
    the dtype kind of an array or column (§4.2, scenario S1 writes
    ["float"]); widths are not recorded. *)
Definition kind_name (k : ascii) : option string :=
  if bool_decide (k = "f"%char) then Some "float"
  else if bool_decide (k = "i"%char) then Some "int"
  else if bool_decide (k = "u"%char) then Some "uint"
  else if bool_decide (k = "b"%char) then Some "bool"
  else if bool_decide (k = "M"%char) then Some "datetime"
  else if bool_decide (k = "O"%char) then Some "text"
  else None.

(** Modelled from the spec: the inverse of [kind_name] used by the
    decoder of the serializer. *)
Definition name_kind (n : string) : option ascii :=
  if String.eqb n "float" then Some "f"%char
  else if String.eqb n "int" then Some "i"%char
  else if String.eqb n "uint" then Some "u"%char
  else if String.eqb n "bool" then Some "b"%char
  else if String.eqb n "datetime" then Some "M"%char
  else if String.eqb n "text" then Some "O"%char
  else None.

(** Modelled from the spec: the dtype the decoder of the serializer
    rebuilds from a recorded kind; the width is the default one, the kind
    is the recorded one (§4.2 rule 2, I5). *)
Definition decode_dtype (n : string) : option dtype :=
  k ← name_kind n; Some {| kind := k; itemsize := 8 |}.

(** Modelled from the spec: rule 1 of the dispatcher of the serializer
    (§4.2) for an n-dimensional numeric array. *)
Definition encode_array (attr : string) (a : ndarray) : result encoded :=
  if is_numeric_kind (kind (adtype a))
  then let* n := of_option (UnsupportedType attr) (kind_name (kind (adtype a))) in
       inr (EArray (shape a) n (data a))
  else inl (UnsupportedType attr).

(** Modelled from the spec: the decoding side of rule 1 of the
    dispatcher of the serializer (§4.2): the array is rebuilt from its
    shape, dtype name and data. *)
Definition decode_array (attr : string) (sh : list nat) (n : string)
    (d : list number) : result ndarray :=
  let* dt := of_option (UnsupportedType attr) (decode_dtype n) in
  inr {| shape := sh; adtype := dt; data := d |}.

(** Modelled from the spec: rule 2 of the dispatcher of the serializer
    (§4.2): column names, one dtype kind per column, column-major cell
    values, and the index (§3). *)
Definition encode_frame (attr : string) (f : DataFrame) : result encoded :=
  let* names := mapM_r (λ c : string * Column,
                  of_option (UnsupportedType attr)
                    (kind_name (kind (col_dtype c.2)))) (df_columns f) in
  inr (ETabular (df_columns f).*1 names (df_index f)
         (col_values ∘ snd <$> df_columns f)).

(** Modelled from the spec: the decoding side of rule 2 of the
    dispatcher of the serializer (§4.2): one column per name, dtype kind
    and list of cells. *)
Fixpoint decode_columns (attr : string) (columns dtypes : list string)
    (cells : list (list scalar)) : result (list (string * Column)) :=
  match columns, dtypes, cells with
  | [], [], [] => inr []
  | c :: columns', n :: dtypes', vs :: cells' =>
      let* dt := of_option (UnsupportedType attr) (decode_dtype n) in
      let* rest := decode_columns attr columns' dtypes' cells' in
      inr ((c, {| col_dtype := dt; col_values := vs |}) :: rest)
  | _, _, _ => inl (UnsupportedType attr)
  end.

(** Modelled from the spec: rule 4 of the dispatcher of the serializer
    (§4.2): array-valued entries by rule 1, scalars passed through. *)
Definition encode_param (attr : string) (p : param) : result encoded :=
  match p with
  | PScalar s => inr (EPlain s)
  | PArray a => encode_array attr a
  end.

(** Modelled from the spec: the decoding side of rule 4 of the
    dispatcher of the serializer (§4.2): arrays are rebuilt from their
    triples, scalars are left as they are. *)
Definition decode_param (attr : string) (e : encoded) : result param :=
  match e with
  | EPlain s => inr (PScalar s)
  | EArray sh n d => let* a := decode_array attr sh n d in inr (PArray a)
  | _ => inl (UnsupportedType attr)
  end.

(** Modelled from the spec: one named entry of a parameter map under
    rule 4 of the dispatcher of the serializer (§4.2). *)
Definition encode_entry {A B} (f : A → result B) (kv : string * A)
  : result (string * B) :=
  let* y := f kv.2 in inr (kv.1, y).

(** Modelled from the spec: [encode_value] of the dispatcher of the
    serializer (§4.2), the rules in priority order; a value without a
    codec fails with [UnsupportedType]. [build] is the recursive call for
    a nested entity. *)
Definition encode_value (build : instance → result document)
    (attr : string) (v : value) : result encoded :=
  match v with
  | VArray a => encode_array attr a
  | VFrame f => encode_frame attr f
  | VObj o => let* doc := build o in inr (ENested (cname (type_of o)) doc)
  | VDict d =>
      let* es := mapM_r (encode_entry (encode_param attr)) d in
      inr (EParams es)
  | VScalar s => inr (EPlain s)
  | VList l => inr (ESeq l)
  | VSeries _ => inl (UnsupportedType attr)
  end.

(** Modelled from the spec: the codec kind (§3) an encoded form of the
    serializer belongs to. *)
Definition form_kind (e : encoded) : codec_kind :=
  match e with
  | EPlain _ | ESeq _ => SCALAR
  | EArray _ _ _ => ARRAY
  | ETabular _ _ _ _ => TABULAR
  | EParams _ => PARAMETER_MAP
  | ENested _ _ => NESTED_ENTITY
  end.

(** Modelled from the spec: the exclusion policy of the serializer
    (§4.4); only a backend has excluded attributes, the two handles the
    tests name. *)
Definition excluded (c : pyclass) : gset string :=
  if subclass_of c "ModelBackendBase" then backend_exclusions else ∅.

(** Modelled from the spec: [is_excluded(entity_type, attribute_name)]
    of the exclusion policy of the serializer (§4.4). *)
Definition is_excluded (c : pyclass) (attr : string) : bool :=
  bool_decide (attr ∈ excluded c).

(** Modelled from the spec: [live_attribute_names(instance)] of P1,
    computed as the two registry tests of the source compute it (lines
    130-133 for a pydantic model, lines 149-151 otherwise). *)
Definition live_attribute_names (o : instance) : option (gset string) :=
  if isinstance o "BaseModel" then field_names o
  else Some (keys (dict_of o)).

(** ** Equivalence

    The comparison rules of the design document, rule by rule. *)

(** Modelled from the spec: the rule for arrays of the equivalence
    checker (§4.5): approximate numeric equality, which the source's
    checker computes and does not assert. *)
Definition arrays_close (x y : ndarray) : bool :=
  is_numeric_kind (kind (adtype x)) && is_numeric_kind (kind (adtype y))
  && match allclose x y with Some b => b | None => false end.

(** Modelled from the spec: the rule for one entry of a parameter map of
    the equivalence checker (§4.5): approximate for arrays, exact for
    scalars. *)
Definition equivalent_param (v w : param) : bool :=
  match v, w with
  | PArray x, PArray y => arrays_close x y
  | PScalar s, PScalar t => scalar_eqb s t
  | _, _ => false
  end.

(** Modelled from the spec: the rule for parameter maps of the
    equivalence checker (§4.5): the same keys on both sides and the
    entries compared per key. *)
Definition equivalent_params (d e : list (string * param)) : bool :=
  bool_decide (keys d = keys e)
  && forallb (λ kv : string * param,
       match assoc kv.1 e with
       | Some w => equivalent_param kv.2 w
       | None => false
       end) d.

(** Modelled from the spec: the dtype part of the rule for tables of the
    equivalence checker (§4.5, I5): the kind of each column. *)
Definition same_kinds (f g : DataFrame) : bool :=
  forallb2 (λ c c' : string * Column,
    bool_decide (kind (col_dtype c.2) = kind (col_dtype c'.2)))
    (df_columns f) (df_columns g).

(** Modelled from the spec: the rules of the equivalence checker (§4.5)
    for one attribute value; [rec] is the recursion into a nested
    entity. *)
Definition equivalent_value (rec : instance → instance → bool)
    (a b : value) : bool :=
  match a, b with
  | VArray x, VArray y => arrays_close x y
  | VFrame f, VFrame g => frame_equal false f g && same_kinds f g
  | VObj o, VObj p => rec o p
  | VDict d, VDict e => equivalent_params d e
  | VScalar s, VScalar t => scalar_eqb s t
  | VList l, VList k => forallb2 scalar_eqb l k
  | VSeries s, VSeries t => series_equal true s t
  | _, _ => false
  end.

(** Modelled from the spec: [equivalent(a, b, ignoring)] of the
    equivalence checker (§4.5): instances of one concrete type, with the
    same attribute names outside [ignoring], each attribute equivalent
    by its rule, a nested entity under the exclusion set of its own
    type. *)
Fixpoint equivalent (fuel : nat) (a b : instance) (ignoring : gset string)
  : bool :=
  match fuel with
  | O => false
  | S fuel' =>
      bool_decide (type_of a = type_of b)
      && match live_attribute_names a, live_attribute_names b with
         | Some A, Some B =>
             bool_decide (A ∖ ignoring = B ∖ ignoring)
             && forallb (λ attr,
                  match getattr a attr, getattr b attr with
                  | Some x, Some y =>
                      equivalent_value
                        (λ o p, equivalent fuel' o p (excluded (type_of o)))
                        x y
                  | _, _ => false
                  end) (elements (A ∖ ignoring))
         | _, _ => false
         end
  end.

Section Codec.

(** Modelled from the spec: [lookup(entity_type)] of the attribute
    registry (§4.1), that is [GLORIA_ATTRIBUTES] for the model class
    and [BACKEND_ATTRIBUTES] for a backend class. *)
Variable registry : pyclass → option (list (string * codec_kind)).

(** Modelled from the spec: the class a discriminant of the document
    names (§9), kept by the serializer. *)
Variable classes : string → option pyclass.

(** Modelled from the spec: whether an entity type supports dynamic
    extension (§4.3). *)
Variable supports_extension : pyclass → bool.

(** Modelled from the spec: the self-check of the registry (§4.1), run
    by the serializer before a document is produced (scenario S5). *)
Definition self_check (reg : list (string * codec_kind)) (o : instance)
  : bool :=
  match live_attribute_names o with
  | Some live => bool_decide (keys reg = live ∖ excluded (type_of o))
  | None => false
  end.

(** Modelled from the spec: the registry entries [build] and [parse] of
    the serializer work on (§4.3): those that are not excluded, in
    registry order. *)
Definition expected_attributes (c : pyclass)
    (reg : list (string * codec_kind)) : list (string * codec_kind) :=
  filter (λ nk, nk.1 ∉ excluded c) reg.

(** Modelled from the spec: the step of [build] of the serializer for
    one registry entry (§4.3): the dispatcher applied to the value of
    the attribute. *)
Definition encode_attribute (build : instance → result document)
    (o : instance) (nk : string * codec_kind) : result (string * encoded) :=
  let* v := of_option (MissingAttribute nk.1) (getattr o nk.1) in
  let* e := encode_value build nk.1 v in
  inr (nk.1, e).

(** Modelled from the spec: [build(entity)] of the serializer (§4.3):
    the self-check, then one entry per registry attribute that is not
    excluded, in registry order. *)
Fixpoint build (fuel : nat) (entity : instance) : result document :=
  match fuel with
  | O => inl DepthExceeded
  | S fuel' =>
      let* reg := of_option (UnsupportedType (cname (type_of entity)))
                    (registry (type_of entity)) in
      if self_check reg entity
      then mapM_r (encode_attribute (build fuel') entity)
             (expected_attributes (type_of entity) reg)
      else inl SchemaMismatch
  end.

(** Modelled from the spec: [decode_value] of the serializer by the
    form alone, used for attributes the registry does not list. *)
Definition decode_form (parse : pyclass → document → result instance)
    (attr : string) (e : encoded) : result value :=
  match e with
  | EPlain s => inr (VScalar s)
  | ESeq l => inr (VList l)
  | EArray sh n d => let* a := decode_array attr sh n d in inr (VArray a)
  | ETabular columns dtypes index cells =>
      let* cols := decode_columns attr columns dtypes cells in
      inr (VFrame {| df_index := index; df_columns := cols |})
  | EParams es =>
      let* d := mapM_r (encode_entry (decode_param attr)) es in
      inr (VDict d)
  | ENested disc doc =>
      let* c := of_option (UnsupportedType attr) (classes disc) in
      let* o := parse c doc in
      inr (VObj o)
  end.

(** Modelled from the spec: [decode_value(encoded_form, expected_kind)]
    of the serializer (§4.2). *)
Definition decode_value (parse : pyclass → document → result instance)
    (attr : string) (e : encoded) (expected_kind : codec_kind)
  : result value :=
  if bool_decide (form_kind e = expected_kind)
  then decode_form parse attr e
  else inl (UnsupportedType attr).

(** Modelled from the spec: the step of [parse] of the serializer for
    one registry entry (§4.3): an attribute absent from the document
    fails with [MissingAttribute]. *)
Definition decode_attribute (parse : pyclass → document → result instance)
    (doc : document) (nk : string * codec_kind) : result (string * value) :=
  let* e := of_option (MissingAttribute nk.1) (assoc nk.1 doc) in
  let* v := decode_value parse nk.1 e nk.2 in
  inr (nk.1, v).

(** Modelled from the spec: the entries of a document that [parse] of
    the serializer does not expect (§4.3): not in the registry and not
    excluded. *)
Definition unexpected_attributes (c : pyclass)
    (reg : list (string * codec_kind)) (doc : document) : document :=
  filter (λ kv, kv.1 ∉ keys reg ∪ excluded c) doc.

(** Modelled from the spec: the fresh instance the parser of the
    serializer constructs: declared fields in the instance dictionary
    and the others as extra fields for a pydantic model, everything in
    the instance dictionary otherwise. Excluded attributes stay
    unset. *)
Definition construct (c : pyclass) (attrs : list (string * value))
  : instance :=
  if subclass_of c "BaseModel"
  then Instance c
         (Some (filter (λ kv, kv.1 ∉ model_fields c) attrs))
         (filter (λ kv, kv.1 ∈ model_fields c) attrs)
  else Instance c None attrs.

(** Modelled from the spec: [parse(document, entity_type)] of the
    serializer (§4.3, §4.4). *)
Fixpoint parse (fuel : nat) (c : pyclass) (doc : document)
  : result instance :=
  match fuel with
  | O => inl DepthExceeded
  | S fuel' =>
      let* reg := of_option (UnsupportedType (cname c)) (registry c) in
      let* attrs := mapM_r (decode_attribute (parse fuel') doc)
                      (expected_attributes c reg) in
      let* extras :=
        if supports_extension c
        then mapM_r (λ kv, let* v := decode_form (parse fuel') kv.1 kv.2 in
                           inr (kv.1, v))
               (unexpected_attributes c reg doc)
        else match unexpected_attributes c reg doc with
             | [] => inr []
             | kv :: _ => inl (UnexpectedAttribute kv.1)
             end in
      inr (construct c (attrs ++ extras))
  end.

(** Modelled from the spec: [to_document(model)] (§6), the document
    level of [Gloria.to_json]. *)
Definition to_document (fuel : nat) (model : instance) : result document :=
  build fuel model.

(** Modelled from the spec: [from_document(document)] (§6), the document
    level of the class method [Gloria.from_json] of the class [cls]. *)
Definition from_document (cls : pyclass) (fuel : nat) (doc : document)
  : result instance :=
  parse fuel cls doc.

(** ** Fitted entities

    The entities the round trip is stated for. At every level the
    registry self-check passes and every registered attribute is set to
    a value of its codec kind; arrays are numeric; no [nan] stands in a
    scalar, a sequence, an array or a parameter map (a table may hold
    some); dictionary keys are unique; the class of a nested entity is
    the one its discriminant names. With [strict] the source's checker
    is provided for as well: unique column labels, arrays inside a
    dictionary only under [fit_params] and nothing but a dictionary
    under that name, every nested entity a pydantic model or a backend
    and none both. *)

Definition valid_frame (strict : bool) (f : DataFrame) : bool :=
  (negb strict || bool_decide (NoDup (df_columns f).*1))
  && forallb (λ c : string * Column,
       bool_decide (is_Some (kind_name (kind (col_dtype c.2)))))
       (df_columns f).

Definition valid_value (strict : bool) (valid_entity : instance → bool)
    (attr : string) (k : codec_kind) (v : value) : bool :=
  match k, v with
  | SCALAR, VScalar s =>
      finite_scalar s && (negb strict || negb (String.eqb attr "fit_params"))
  | SCALAR, VList l =>
      forallb finite_scalar l
      && (negb strict || negb (String.eqb attr "fit_params"))
  | ARRAY, VArray a => valid_array a
  | TABULAR, VFrame f => valid_frame strict f
  | PARAMETER_MAP, VDict d =>
      bool_decide (NoDup d.*1)
      && forallb (λ kv, valid_param kv.2) d
      && (negb strict
          || String.eqb attr "fit_params"
          || forallb (λ kv, is_scalar_param kv.2) d)
  | NESTED_ENTITY, VObj o =>
      (negb strict || isinstance o "BaseModel"
       || isinstance o "ModelBackendBase")
      && bool_decide (classes (cname (type_of o)) = Some (type_of o))
      && valid_entity o
  | _, _ => false
  end.

Definition valid_attribute (strict : bool) (valid_entity : instance → bool)
    (o : instance) (nk : string * codec_kind) : bool :=
  match getattr o nk.1 with
  | Some v => valid_value strict valid_entity nk.1 nk.2 v
  | None => false
  end.

Fixpoint valid_entity (strict : bool) (fuel : nat) (o : instance) : bool :=
  match fuel with
  | O => false
  | S fuel' =>
      match registry (type_of o) with
      | None => false
      | Some reg =>
          self_check reg o
          && (negb strict
              || negb (isinstance o "BaseModel"
                       && isinstance o "ModelBackendBase"))
          && forallb (valid_attribute strict (valid_entity strict fuel') o)
               (expected_attributes (type_of o) reg)
      end
  end.

(** Modelled from the spec: I4 and P3 for a document; it holds no key
    that is excluded for the entity it encodes, and neither does the
    sub-document of any entity nested in it. *)
Inductive exclusions_respected : instance → document → Prop :=
| Exclusions_respected o doc :
    (∀ k, k ∈ excluded (type_of o) → k ∉ keys doc) →
    (∀ attr o' disc sub,
       getattr o attr = Some (VObj o') → (attr, ENested disc sub) ∈ doc →
       exclusions_respected o' sub) →
    exclusions_respected o doc.

(** Modelled from the spec: scenario S2 for a decoded instance; with
    all nested instances it has no excluded attribute set. *)
Inductive excluded_unset : instance → Prop :=
| Excluded_unset o :
    (∀ k, k ∈ excluded (type_of o) → getattr o k = None) →
    (∀ attr o', getattr o attr = Some (VObj o') → excluded_unset o') →
    excluded_unset o.

(** Modelled from the spec: P2 for one entity; it is encoded, the
    document is decoded, the decoded instance is equivalent to the
    original under the exclusion set of the entity type, and with
    [strict] the source's checker accepts it when it ignores that
    set. *)
Definition round_trips (strict : bool) (fuel : nat) (o : instance) : Prop :=
  ∃ doc o',
    build fuel o = inr doc
    ∧ parse fuel (type_of o) doc = inr o'
    ∧ equivalent fuel o' o (excluded (type_of o)) = true
    ∧ (strict = true →
       compare_class_instances fuel o' (VObj o) (excluded (type_of o))
       = Passed).

(** What the round trip of an entity gives for one of its attribute
    values. *)
Definition value_round_trips (strict : bool) (fuel : nat) (attr : string)
    (k : codec_kind) (v : value) (e : encoded) (v' : value) : Prop :=
  encode_value (build fuel) attr v = inr e
  ∧ form_kind e = k
  ∧ decode_form (parse fuel) attr e = inr v'
  ∧ equivalent_value (λ o p, equivalent fuel o p (excluded (type_of o))) v' v
    = true
  ∧ (strict = true →
     compare_value (compare_class_instances fuel) attr v' v = Passed).

(** What encoding leaves in the document for one registry entry. *)
Definition encoded_entry (strict : bool) (fuel : nat) (o : instance)
    (nk : string * codec_kind) (kv : string * encoded) : Prop :=
  kv.1 = nk.1
  ∧ ∃ v v', getattr o nk.1 = Some v
      ∧ value_round_trips strict fuel nk.1 nk.2 v kv.2 v'.


End Codec.

(** Two parameter entries that differ at most in the dtype of an array,
    which stays numeric. *)
Definition param_same (p p' : param) : Prop :=
  match p, p' with
  | PScalar s, PScalar s' => s = s'
  | PArray a, PArray a' =>
      shape a = shape a' ∧ data a = data a'
      ∧ kind (adtype a) = kind (adtype a')
  | _, _ => False
  end.

(** ** A sample model with its registries *)

Module SampleModel.

Import Samples.

Definition Gloria : pyclass :=
  {| cname := "Gloria"; bases := ["BaseModel"];
     model_fields := ["model"; "n_changepoints"] |}.

Definition GLORIA_ATTRIBUTES : list (string * codec_kind) :=
  [("model", SCALAR); ("n_changepoints", SCALAR); ("history", TABULAR);
   ("first_timestamp", ARRAY); ("model_backend", NESTED_ENTITY)].

Definition BACKEND_ATTRIBUTES : list (string * codec_kind) :=
  [("fit_params", PARAMETER_MAP)].

Definition registry (c : pyclass) : option (list (string * codec_kind)) :=
  if String.eqb (cname c) "Gloria" then Some GLORIA_ATTRIBUTES
  else if String.eqb (cname c) "ModelBackend" then Some BACKEND_ATTRIBUTES
  else None.

Definition classes (n : string) : option pyclass :=
  if String.eqb n "ModelBackend" then Some Backend
  else if String.eqb n "Gloria" then Some Gloria
  else None.

Definition supports_extension (c : pyclass) : bool :=
  subclass_of c "BaseModel".

(** A fitted backend: the two handles are set. *)
Definition backend : instance :=
  Instance Backend None
    [("stan_fit", VScalar (SStr "<CmdStanMLE>"));
     ("fit_params",
      VDict [("alpha", PScalar (SFloat 0.5));
             ("beta", PArray (vector_array [1; 2; 3]%Q))]);
     ("model", VScalar (SStr "<CmdStanModel>"))].

Definition model : instance :=
  Instance Gloria
    (Some [("history", VFrame (frame float32 [SFloat 1; SFloat 2]));
           ("first_timestamp", vec [1; 2]%Q);
           ("model_backend", VObj backend)])
    [("n_changepoints", VScalar (SInt 3));
     ("model", VScalar (SStr "poisson"))].


(** The same model with its instance dictionary filled in another
    order. *)
Definition model_reordered : instance :=
  Instance Gloria
    (Some [("model_backend", VObj backend);
           ("history", VFrame (frame float32 [SFloat 1; SFloat 2]));
           ("first_timestamp", vec [1; 2]%Q)])
    [("model", VScalar (SStr "poisson"));
     ("n_changepoints", VScalar (SInt 3))].

End SampleModel.

(** ** More sample instances *)

Module MoreSamples.

Import Samples.

(** A backend with one of its handles set. *)
Definition fitted_backend (handle : string) : instance :=
  Instance Backend None
    [("stan_fit", VScalar (SStr handle));
     ("fit_params", VDict [("alpha", PScalar (SFloat 0.5))])].


(** A table with a repeated column label. *)
Definition repeated_labels : DataFrame :=
  {| df_index := [SInt 0];
     df_columns := [("y", column float64 [SFloat 1]);
                    ("y", column float64 [SFloat 2])] |}.

End MoreSamples.

(** ** Notions used to state further properties of the checker *)

(** Two instances of one class that cannot be told apart outside a set
    of attribute names: the same names and the same values there. *)
Definition agree_outside (ign : gset string) (o o' : instance) : Prop :=
  type_of o = type_of o'
  ∧ (λ s : gset string, s ∖ ign) <$> field_names o
    = (λ s : gset string, s ∖ ign) <$> field_names o'
  ∧ keys (dict_of o) ∖ ign = keys (dict_of o') ∖ ign
  ∧ ∀ attr, attr ∉ ign → getattr o attr = getattr o' attr.

(** The values the checker accepts against an equal copy of themselves:
    arrays of a numeric dtype, no [nan] in a scalar, a sequence or a
    dictionary, unique column labels and dictionary keys, arrays inside
    a dictionary only under the name [fit_params], nothing but a
    dictionary under that name, and no instance that is neither a
    pydantic model nor a backend. *)
Definition comparable_value (rec : instance → gset string → bool)
    (attr : string) (v : value) : bool :=
  match v with
  | VArray a => is_numeric_kind (kind (adtype a))
  | VSeries _ => true
  | VFrame f => bool_decide (NoDup (df_columns f).*1)
  | VObj o =>
      if isinstance o "BaseModel" then rec o ∅
      else if isinstance o "ModelBackendBase" then rec o backend_exclusions
      else false
  | VDict d =>
      bool_decide (NoDup d.*1)
      && forallb (λ kv : string * param, valid_param kv.2) d
      && (String.eqb attr "fit_params"
          || forallb (λ kv : string * param, is_scalar_param kv.2) d)
  | VScalar s => finite_scalar s && negb (String.eqb attr "fit_params")
  | VList l =>
      forallb finite_scalar l && negb (String.eqb attr "fit_params")
  end.

Fixpoint self_comparable (fuel : nat) (o : instance) (ign : gset string)
  : bool :=
  match fuel with
  | O => false
  | S fuel' =>
      match attribute_sets o o ign with
      | None => false
      | Some (attributes, _) =>
          forallb (λ attr,
            match getattr o attr with
            | Some v => comparable_value (self_comparable fuel') attr v
            | None => false
            end) (elements attributes)
      end
  end.

(** * Properties of the checker *)

Lemma for_each_passed {A} (l : list A) (body : A → outcome) :
  for_each l body = Passed ↔ ∀ x, x ∈ l → body x = Passed.
Proof.
  induction l as [|x l IH]; simpl.
  - split; [intros _ y Hy; inversion Hy | done].
  - destruct (body x) eqn:Hx.
    + rewrite IH. split.
      * intros H y Hy. apply elem_of_cons in Hy as [->|Hy]; auto.
      * intros H y Hy. apply H. by right.
    + split; [done|]. intros H.
      assert (x ∈ x :: l) as Hin by (by left).
      apply H in Hin. congruence.
Qed.


Lemma and_then_passed (o k : outcome) :
  and_then o k = Passed ↔ o = Passed ∧ k = Passed.
Proof. destruct o; simpl; naive_solver. Qed.

Lemma assert_passed (b : bool) : assert b = Passed ↔ b = true.
Proof. destruct b; simpl; naive_solver. Qed.


Lemma compare_passed_inv fuel actual desired ign :
  compare_class_instances fuel actual (VObj desired) ign = Passed →
  ∃ fuel',
    fuel = S fuel' ∧
    isinstance actual (cname (type_of desired)) = true ∧
    attribute_names (isinstance actual "BaseModel") actual ∖ ign
    = attribute_names (isinstance actual "BaseModel") desired ∖ ign ∧
    ∀ attr, attr ∈ attribute_names (isinstance actual "BaseModel") actual →
      attr ∉ ign →
      ∃ av dv, getattr actual attr = Some av ∧ getattr desired attr = Some dv ∧
        compare_value (compare_class_instances fuel') attr av dv = Passed.
Proof.
  destruct fuel as [|fuel']; simpl; [done|].
  destruct (isinstance actual (cname (type_of desired))) eqn:Hi; simpl; [|done].
  destruct (attribute_sets actual desired ign) as [[A D]|] eqn:Hs; [|done].
  case_bool_decide as Heq; [|done]. subst D.
  intros Hloop. exists fuel'. split; [done|]. split; [done|].
  assert (A = attribute_names (isinstance actual "BaseModel") actual ∖ ign
          ∧ A = attribute_names (isinstance actual "BaseModel") desired ∖ ign)
    as [HA HD].
  { unfold attribute_sets, attribute_names, field_names in *.
    destruct (isinstance actual "BaseModel"); simplify_eq; [|done].
    destruct (model_extra actual); simplify_eq/=.
    destruct (isinstance desired "BaseModel"); simplify_eq/=.
    destruct (model_extra desired); simplify_eq/=. done. }
  split; [congruence|].
  intros attr Hin Hni.
  unfold compare_attributes in Hloop.
  rewrite for_each_passed in Hloop.
  assert (attr ∈ elements A) as Hel by (rewrite elem_of_elements; set_solver).
  apply Hloop in Hel.
  destruct (getattr actual attr) as [av|]; [|done].
  destruct (getattr desired attr) as [dv|]; [|done].
  eauto.
Qed.

(** ** Attribute-name sets (lines 48-62) *)

(** C9: the checker demands that both instances carry exactly the same
    attribute names outside the ignore set. A name that is not ignored and
    that only one of the two instances carries makes the check fail, on
    whichever side the surplus name is. *)
Theorem attribute_sets_must_agree fuel actual desired ign name :
  name ∉ ign →
  let pydantic := isinstance actual "BaseModel" in
  (name ∈ attribute_names pydantic actual
   ∧ name ∉ attribute_names pydantic desired)
  ∨ (name ∈ attribute_names pydantic desired
     ∧ name ∉ attribute_names pydantic actual) →
  compare_class_instances fuel actual (VObj desired) ign ≠ Passed.
Proof.
  intros Hni pydantic Hdiff Hpass.
  apply compare_passed_inv in Hpass as (fuel' & _ & _ & Heq & _).
  fold pydantic in Heq. set_solver.
Qed.

Lemma attribute_sets_must_agree_witness :
  compare_class_instances 3
    (Instance Samples.Config (Some [("note", VScalar (SInt 1))])
       [("x", VScalar (SInt 0))])
    (VObj (Samples.with_x (VScalar (SInt 0)))) ∅ ≠ Passed.
Proof.
  apply (attribute_sets_must_agree _ _ _ _ "note").
  - set_solver.
  - left. vm_compute. split; [done|]. intros H. by vm_compute in H.
Defined.

(** ** The type test (lines 45-46) *)

(** The assertion rejects, before any attribute is read, every [actual]
    whose class is neither the class of [desired] nor derived from it. *)
Lemma unrelated_types_fail fuel actual desired ign :
  isinstance actual (cname (type_of desired)) = false →
  compare_class_instances (S fuel) actual (VObj desired) ign
  = Raised AssertionError.
Proof. intros H. simpl. by rewrite H. Qed.

(** C7: an instance of a derived class is accepted against an instance of
    its base class, although the two concrete types differ; the converse
    order is rejected. *)
Theorem subclass_instance_accepted :
  let actual := Instance Samples.Derived None [] in
  let desired := Instance Samples.Base None [] in
  cname (type_of actual) ≠ cname (type_of desired)
  ∧ compare_class_instances 1 actual (VObj desired) ∅ = Passed
  ∧ compare_class_instances 1 desired (VObj actual) ∅
    = Raised AssertionError.
Proof. by vm_compute. Qed.

(** ** Arrays (lines 70-71) *)

(** The result of [np.allclose] is not asserted: the array branch passes
    whenever the call returns, whatever it returns. *)
Lemma array_branch_ignores_result rec attr a d b :
  call_allclose a d = inr b →
  compare_value rec attr (VArray a) d = Passed.
Proof. intros H. simpl. by rewrite H. Qed.

(** C4: two array attributes that are far apart pass the check, while the
    same two arrays as entries of [fit_params] are rejected. *)
Theorem array_mismatch_passes :
  let a := vector_array [1%Q] in
  let d := vector_array [2%Q] in
  allclose a d = Some false
  ∧ compare_class_instances 1 (Samples.with_x (VArray a))
      (VObj (Samples.with_x (VArray d))) ∅ = Passed
  ∧ compare_class_instances 1 (Samples.with_fit_params [("k", PArray a)])
      (VObj (Samples.with_fit_params [("k", PArray d)])) ∅
    = Raised AssertionError.
Proof. by vm_compute. Qed.

(** ** Tables (lines 74-79) *)









(** An integer column against a floating column with the same values is
    accepted by [assert_frame_equal(check_dtype=False)] and rejected by
    the assertion on the kind. *)
Example frame_kind_mismatch_fails :
  let fa := Samples.frame int64 [SInt 1; SInt 2] in
  let fd := Samples.frame float64 [SFloat 1; SFloat 2] in
  frame_equal false fa fd = true
  ∧ compare_value (λ _ _ _, Passed) "history" (VFrame fa) (VFrame fd)
    = Raised AssertionError.
Proof. by vm_compute. Qed.

(** ** Series (lines 72-73) *)

Lemma compare_series_passed rec attr sa d :
  compare_value rec attr (VSeries sa) d = Passed →
  ∃ sd, d = VSeries sd
    ∧ sr_dtype sa = sr_dtype sd
    ∧ index_equal (sr_index sa) (sr_index sd) = true
    ∧ values_equal (sr_dtype sa) (sr_dtype sd) (sr_values sa) (sr_values sd)
      = true
    ∧ sr_name sa = sr_name sd.
Proof.
  simpl. unfold compare_series. destruct d as [| | |sd| | |]; try done.
  rewrite assert_passed. unfold series_equal. simpl.
  rewrite !andb_true_iff, !bool_decide_eq_true. naive_solver.
Qed.

(** C10: a Series attribute passes only against a Series with the same
    index, values, name and the very same dtype, width included; two
    Series of one kind and different widths fail. The rule is strictly
    stronger than the one for tables: whatever passes as a Series passes
    as a one-column table, and some pair passes as a table only. *)
Theorem series_check_exact_dtype rec attr sa :
  (∀ d, compare_value rec attr (VSeries sa) d = Passed →
     ∃ sd, d = VSeries sd
       ∧ sr_dtype sa = sr_dtype sd
       ∧ index_equal (sr_index sa) (sr_index sd) = true
       ∧ values_equal (sr_dtype sa) (sr_dtype sd)
           (sr_values sa) (sr_values sd) = true
       ∧ sr_name sa = sr_name sd)
  ∧ (∀ sd, kind (sr_dtype sa) = kind (sr_dtype sd) →
       itemsize (sr_dtype sa) ≠ itemsize (sr_dtype sd) →
       compare_value rec attr (VSeries sa) (VSeries sd) ≠ Passed)
  ∧ (∀ sd, compare_value rec attr (VSeries sa) (VSeries sd) = Passed →
       compare_value rec attr (VFrame (to_frame sa)) (VFrame (to_frame sd))
       = Passed)
  ∧ (∃ s1 s2,
       kind (sr_dtype s1) = kind (sr_dtype s2)
       ∧ sr_values s1 = sr_values s2
       ∧ compare_value rec attr (VSeries s1) (VSeries s2)
         = Raised AssertionError
       ∧ compare_value rec attr (VFrame (to_frame s1)) (VFrame (to_frame s2))
         = Passed).
Proof.
  split; [intros d; apply compare_series_passed|].
  split; [|split].
  - intros sd _ Hw Hpass.
    apply compare_series_passed in Hpass as (sd' & [= <-] & Hd & _).
    by rewrite Hd in Hw.
  - intros sd Hpass.
    apply compare_series_passed in Hpass as (sd' & [= <-] & Hd & Hi & Hv & Hn).
    simpl. unfold compare_frames, frame_equal, column_kind. simpl.
    rewrite Hi, Hn. unfold column_equal. simpl.
    rewrite String.eqb_refl, Hv. simpl.
    rewrite !filter_cons_True by done. simpl.
    rewrite Hd. by rewrite bool_decide_eq_true_2.
  - exists (Samples.series float32 [SFloat 1; SFloat 2]),
      (Samples.series float64 [SFloat 1; SFloat 2]).
    by vm_compute.
Qed.

Lemma series_check_exact_dtype_witness :
  compare_value (λ _ _ _, Passed) "y_scaled"
    (VSeries (Samples.series float32 [SFloat 1; SFloat 2]))
    (VSeries (Samples.series float64 [SFloat 1; SFloat 2])) ≠ Passed
  ∧ compare_value (λ _ _ _, Passed) "y_scaled"
      (VFrame (to_frame (Samples.series float64 [SFloat 1; SFloat 2])))
      (VFrame (to_frame (Samples.series float64 [SFloat 1; SFloat 2])))
    = Passed.
Proof.
  split.
  - apply (series_check_exact_dtype (λ _ _ _, Passed) "y_scaled"
             (Samples.series float32 [SFloat 1; SFloat 2])); [done|].
    simpl. lia.
  - apply (series_check_exact_dtype (λ _ _ _, Passed) "y_scaled"
             (Samples.series float64 [SFloat 1; SFloat 2])).
    by vm_compute.
Defined.

(** ** Reflexivity of the elementary comparisons *)

Lemma isclose_refl x : isclose x x = true.
Proof.
  unfold isclose. apply Qle_bool_iff.
  assert (Qabs (x - x) == 0)%Q as -> by (setoid_replace (x - x)%Q with 0%Q using relation Qeq by ring; reflexivity).
  change (Qabs 0) with 0%Q.
  apply Qle_trans with (0 + 0 * Qabs x)%Q; [by ring_simplify|].
  apply Qplus_le_compat; [done|].
  apply Qmult_le_compat_r; [done | apply Qabs_nonneg].
Qed.

Lemma math_isclose_refl x : math_isclose x x = true.
Proof.
  unfold math_isclose. apply Qle_bool_iff.
  assert (Qabs (x - x) == 0)%Q as -> by (setoid_replace (x - x)%Q with 0%Q using relation Qeq by ring; reflexivity).
  change (Qabs 0) with 0%Q.
  apply Qle_trans with atol; [done | apply Q.le_max_r].
Qed.

Lemma scalar_eqb_refl s : finite_scalar s = true → scalar_eqb s s = true.
Proof.
  destruct s as [|b|z|q| |s]; unfold scalar_eqb; simpl; intros Hs;
    try apply Qeq_bool_refl; try done.
  apply String.eqb_refl.
Qed.

Lemma pd_equal_refl s : pd_equal s s = true.
Proof. destruct s; try done; by apply scalar_eqb_refl. Qed.

Lemma cell_equal_refl exact s : cell_equal exact s s = true.
Proof.
  unfold cell_equal. destruct exact; [apply pd_equal_refl|].
  destruct (as_number s); [apply math_isclose_refl | apply pd_equal_refl].
Qed.

Lemma forallb2_refl {A} (f : A → A → bool) l :
  (∀ x, f x x = true) → forallb2 f l l = true.
Proof. intros H. induction l; simpl; [done|]. by rewrite H. Qed.

Lemma forallb2_refl_in {A} (f : A → A → bool) l :
  (∀ x, x ∈ l → f x x = true) → forallb2 f l l = true.
Proof.
  induction l as [|x l IH]; intros H; simpl; [done|].
  rewrite H by left. apply IH. intros y Hy. apply H. by right.
Qed.

Lemma forallb_elem_of {A} (f : A → bool) l :
  forallb f l = true ↔ ∀ x, x ∈ l → f x = true.
Proof.
  rewrite forallb_forall. split; intros H x Hx; apply H;
    by apply list_elem_of_In.
Qed.

Lemma broadcast_rev_refl s : broadcast_rev s s = Some s.
Proof.
  induction s as [|a s IH]; simpl; [done|].
  rewrite IH. simpl. by rewrite Nat.eqb_refl.
Qed.

Lemma broadcast_shapes_refl s : broadcast_shapes s s = Some s.
Proof.
  unfold broadcast_shapes. rewrite broadcast_rev_refl. simpl.
  by rewrite reverse_involutive.
Qed.

(** Broadcasting to the array's own shape keeps the elements that are
    there: nothing new appears. *)
Lemma chunks_subseteq {A} n k (l : list A) c x :
  c ∈ chunks n k l → x ∈ c → x ∈ l.
Proof.
  revert l. induction k as [|k IH]; intros l Hc Hx; simpl in Hc;
    [by apply elem_of_nil in Hc|].
  apply elem_of_cons in Hc as [->|Hc].
  - rewrite <-(take_drop n l). apply elem_of_app. by left.
  - rewrite <-(take_drop n l). apply elem_of_app. right. by eapply IH.
Qed.

Lemma elem_of_concat {A} (ls : list (list A)) x :
  x ∈ concat ls → ∃ l, x ∈ l ∧ l ∈ ls.
Proof.
  induction ls as [|l ls IH]; simpl; intros Hx; [by apply elem_of_nil in Hx|].
  apply elem_of_app in Hx as [Hx|Hx].
  - exists l. split; [done | by left].
  - destruct (IH Hx) as (l' & ? & ?). exists l'. split; [done | by right].
Qed.

Lemma broadcast_to_elem_of {A} s t (d r : list A) x :
  broadcast_to s t d = Some r → x ∈ r → x ∈ d.
Proof.
  revert s d r. induction t as [|b t IH]; intros s d r Hr Hx; simpl in Hr.
  - destruct s; by simplify_eq.
  - destruct (length s <? S (length t))%nat.
    + destruct (broadcast_to s t d) as [r'|] eqn:Hr'; simplify_eq/=.
      apply elem_of_concat in Hx as (c & Hx & Hc).
      apply elem_of_replicate in Hc as [-> _]. by eapply IH.
    + destruct s as [|a s]; [done|].
      destruct (a =? b)%nat.
      * destruct (mapM _ _) as [rs|] eqn:Hrs; simplify_eq/=.
        apply elem_of_concat in Hx as (c & Hx & Hc).
        apply mapM_Some in Hrs.
        apply list_elem_of_lookup in Hc as [i Hi].
        destruct (Forall2_lookup_r _ _ _ _ _ Hrs Hi) as (c0 & Hc0 & Hb).
        eapply chunks_subseteq; [by eapply list_elem_of_lookup_2|].
        by eapply IH.
      * destruct (a =? 1)%nat; [|done].
        destruct (broadcast_to s t d) as [r'|] eqn:Hr'; simplify_eq/=.
        apply elem_of_concat in Hx as (c & Hx & Hc).
        apply elem_of_replicate in Hc as [-> _]. by eapply IH.
Qed.

Lemma broadcast_to_refl {A} s (d : list A) : is_Some (broadcast_to s s d).
Proof.
  revert d. induction s as [|a s IH]; intros d; simpl; [done|].
  rewrite Nat.ltb_irrefl, Nat.eqb_refl.
  destruct (mapM_is_Some_2 (broadcast_to s s) (chunks (size_of s) a d))
    as [rs Hrs].
  - apply Forall_forall. intros x _. apply IH.
  - rewrite Hrs. done.
Qed.

Lemma element_isclose_refl x :
  finite_element x = true → element_isclose x x = true.
Proof. destruct x; [intros _; apply isclose_refl | done]. Qed.

(** Two arrays of one shape holding the same finite elements are close,
    whatever their dtypes. *)
Lemma allclose_same a b :
  shape a = shape b → data a = data b →
  forallb finite_element (data a) = true →
  allclose a b = Some true.
Proof.
  intros Hs Hd Hfin. unfold allclose, broadcast_pair.
  rewrite <-Hs, <-Hd, broadcast_shapes_refl. simpl.
  destruct (broadcast_to_refl (shape a) (data a)) as [r Hr]. rewrite Hr.
  simpl. f_equal. apply forallb2_refl_in. intros x Hx.
  apply element_isclose_refl.
  rewrite forallb_elem_of in Hfin. apply Hfin.
  by eapply broadcast_to_elem_of.
Qed.


(** ** Parameter dictionaries (lines 89-95) *)

Lemma assoc_NoDup {V} (d : list (string * V)) k v :
  NoDup d.*1 → (k, v) ∈ d → assoc k d = Some v.
Proof.
  induction d as [|[k' v'] d IH]; intros Hnd Hin; [inversion Hin|].
  rewrite fmap_cons in Hnd. apply NoDup_cons in Hnd as [Hk Hnd].
  apply elem_of_cons in Hin as [[= <- <-]|Hin]; simpl.
  - by rewrite String.eqb_refl.
  - destruct (String.eqb_spec k' k) as [->|_]; [|by apply IH].
    destruct Hk. by apply (list_elem_of_fmap_2 fst _ (k, v)).
Qed.

(** The loop of lines 91-95 passes exactly when every entry of [actual]
    finds an entry of its name in [desired] that it matches. *)
Lemma compare_fit_params_passed items d :
  compare_fit_params items (VDict d) = Passed
  ↔ ∀ k v, (k, v) ∈ items →
      ∃ w, assoc k d = Some w
        ∧ match v with
          | PArray a =>
              match call_allclose a (param_value w) with
              | inl e => Raised e
              | inr b => assert b
              end
          | PScalar s => py_assert_eq (VScalar s) (param_value w)
          end = Passed.
Proof.
  unfold compare_fit_params. rewrite for_each_passed. split.
  - intros H k v Hin. apply H in Hin. simpl in Hin.
    destruct (assoc k d) as [w|]; [|done]. by exists w.
  - intros H [k v] Hin. destruct (H k v Hin) as (w & Hw & Hm). simpl.
    by rewrite Hw.
Qed.

(** C6: the loop over a [fit_params] dictionary reads the keys of
    [actual] only. An empty dictionary passes against a dictionary with
    an entry, and so does the backend that holds it against the backend
    that holds the other, although the attribute differs; with the
    arguments exchanged the missing key raises [KeyError]. Under any
    other name the same two dictionaries fail in both orders, as the
    attribute names do at line 62. *)
Theorem fit_params_keys_one_sided :
  let less := [] in
  let more := [("alpha", PScalar (SFloat 0.5))] in
  let backend := Samples.with_fit_params in
  let rec := λ _ _ _, Passed in
  compare_value rec "fit_params" (VDict less) (VDict more) = Passed
  ∧ compare_class_instances 2 (backend less) (VObj (backend more))
      backend_exclusions = Passed
  ∧ compare_value rec "fit_params" (VDict more) (VDict less)
    = Raised KeyError
  ∧ compare_class_instances 2 (backend more) (VObj (backend less))
      backend_exclusions = Raised KeyError
  ∧ compare_value rec "params" (VDict less) (VDict more)
    = Raised AssertionError
  ∧ compare_value rec "params" (VDict more) (VDict less)
    = Raised AssertionError
  ∧ compare_class_instances 2 (backend less)
      (VObj (Instance Samples.Backend None
               [("fit_params", VDict less); ("alpha", VScalar (SFloat 0.5))]))
      backend_exclusions = Raised AssertionError
  ∧ (∀ entry items,
       compare_value rec "fit_params" (VDict []) (VDict (entry :: items))
       = Passed
       ∧ compare_value rec "params" (VDict []) (VDict (entry :: items))
         = Raised AssertionError).
Proof.
  intros less more backend rec.
  do 7 (split; [by vm_compute|]).
  by intros entry items.
Qed.

(** An array entry beyond the tolerance, a scalar entry that differs and
    a missing key each fail the check; an entry that only [desired] has
    is not looked at. *)
Example fit_params_mismatches :
  let check a d :=
    compare_value (λ _ _ _, Passed) "fit_params" (VDict a) (VDict d) in
  check [("beta", PArray (vector_array [1; 2]%Q))]
        [("beta", PArray (vector_array [1; 2.1]%Q))] = Raised AssertionError
  ∧ check [("alpha", PScalar (SFloat 0.5))]
          [("alpha", PScalar (SFloat 0.50000000001))] = Raised AssertionError
  ∧ check [("beta", PArray (vector_array [1; 2]%Q))]
          [("beta", PArray (vector_array [1; 2.00000000001]%Q))] = Passed
  ∧ check [("alpha", PScalar (SFloat 0.5))] [] = Raised KeyError
  ∧ check [] [("alpha", PScalar (SFloat 0.5))] = Passed.
Proof. by vm_compute. Qed.

(** * Properties of the codec *)

Lemma mapM_r_inr {A B} (f : A → result B) l k :
  mapM_r f l = inr k ↔ Forall2 (λ x y, f x = inr y) l k.
Proof.
  revert k. induction l as [|x l IH]; intros k; simpl.
  - split; [by intros [= <-] | by inversion 1].
  - destruct (f x) as [e|y] eqn:Hx; simpl.
    + split; [done | inversion 1; congruence].
    + destruct (mapM_r f l) as [e|ys] eqn:Hl; simpl.
      * split; [done|]. inversion 1 as [|? y' ? k' Hy Hk]; subst.
        apply IH in Hk. congruence.
      * split.
        -- intros [= <-]. constructor; [done | by apply IH].
        -- inversion 1 as [|? y' ? k' Hy Hk]; subst.
           apply IH in Hk. congruence.
Qed.

Lemma mapM_r_ext {A B} (f g : A → result B) l :
  (∀ x, x ∈ l → f x = g x) → mapM_r f l = mapM_r g l.
Proof.
  induction l as [|x l IH]; intros H; simpl; [done|].
  rewrite (H x) by (by left). rewrite IH; [done|].
  intros y Hy. apply H. by right.
Qed.






Lemma filter_none {A} (P : A → Prop) `{∀ x, Decision (P x)} (l : list A) :
  (∀ x, x ∈ l → ¬ P x) → filter P l = [].
Proof.
  induction l as [|x l IH]; intros Hl; [done|].
  rewrite filter_cons_False by (apply Hl; by left).
  apply IH. intros y Hy. apply Hl. by right.
Qed.

Lemma filter_label_NoDup (cols : list (string * Column)) c :
  NoDup cols.*1 → c ∈ cols →
  filter (λ x : string * Column, x.1 = c.1) cols = [c].
Proof.
  induction cols as [|x cols IH]; intros Hnd Hin; [inversion Hin|].
  rewrite fmap_cons in Hnd. apply NoDup_cons in Hnd as [Hx Hnd].
  apply elem_of_cons in Hin as [->|Hin].
  - rewrite filter_cons_True by done. f_equal.
    apply filter_none. intros y Hy Heq.
    apply Hx. rewrite <-Heq. by apply list_elem_of_fmap_2.
  - rewrite filter_cons_False; [by apply IH|].
    intros Heq. apply Hx. rewrite Heq. by apply list_elem_of_fmap_2.
Qed.

(** A table with unique column labels passes against itself. *)
Lemma compare_frames_refl f :
  NoDup (df_columns f).*1 → compare_frames f (VFrame f) = Passed.
Proof.
  intros Hnd. unfold compare_frames.
  apply and_then_passed. split.
  - apply assert_passed. unfold frame_equal.
    rewrite andb_true_iff. split.
    + apply forallb2_refl, pd_equal_refl.
    + apply forallb2_refl. intros c. unfold column_equal. simpl.
      rewrite String.eqb_refl. simpl.
      apply forallb2_refl, cell_equal_refl.
  - apply for_each_passed. intros col Hcol.
    apply list_elem_of_fmap in Hcol as (c & -> & Hc).
    unfold column_kind. rewrite (filter_label_NoDup _ _ Hnd Hc).
    apply assert_passed. by apply bool_decide_eq_true.
Qed.



Lemma frame_equal_refl f : frame_equal false f f = true.
Proof.
  unfold frame_equal. rewrite andb_true_iff. split.
  - apply forallb2_refl, pd_equal_refl.
  - apply forallb2_refl. intros c. unfold column_equal. simpl.
    rewrite String.eqb_refl. simpl.
    apply forallb2_refl, cell_equal_refl.
Qed.




Lemma param_same_checked p' p :
  param_same p' p → valid_param p = true →
  match p' with
  | PArray a =>
      match call_allclose a (param_value p) with
      | inl e => Raised e
      | inr b => assert b
      end
  | PScalar s => py_assert_eq (VScalar s) (param_value p)
  end = Passed.
Proof.
  destruct p' as [s'|a'], p as [s|a]; simpl; try done.
  - intros -> Hs. by rewrite scalar_eqb_refl.
  - intros (Hs & Hd & Hk) Hv. unfold call_allclose. simpl.
    unfold valid_array in Hv. apply andb_true_iff in Hv as [Hn Hfin].
    rewrite Hk, Hn. simpl.
    rewrite allclose_same; [done..|]. by rewrite Hd.
Qed.

Lemma params_lookup (d' d : list (string * param)) k v' :
  Forall2 (λ x y, x.1 = y.1 ∧ param_same x.2 y.2) d' d →
  NoDup d.*1 → (k, v') ∈ d' →
  ∃ v, (k, v) ∈ d ∧ assoc k d = Some v ∧ param_same v' v.
Proof.
  intros Hsame Hnd Hin.
  apply list_elem_of_lookup in Hin as [i Hi].
  destruct (Forall2_lookup_l _ _ _ _ _ Hsame Hi) as ([k0 v] & Hv & Hk & Hp).
  simpl in Hk, Hp. subst k0.
  apply list_elem_of_lookup_2 in Hv.
  exists v. split; [done|]. split; [by apply assoc_NoDup | done].
Qed.

Lemma compare_fit_params_same (d' d : list (string * param)) :
  Forall2 (λ x y, x.1 = y.1 ∧ param_same x.2 y.2) d' d →
  NoDup d.*1 →
  forallb (λ kv, valid_param kv.2) d = true →
  compare_fit_params d' (VDict d) = Passed.
Proof.
  intros Hsame Hnd Hval. apply compare_fit_params_passed.
  intros k v' Hin.
  destruct (params_lookup _ _ _ _ Hsame Hnd Hin) as (v & Hv & Hk & Hp).
  exists v. split; [done|]. apply param_same_checked; [done|].
  rewrite forallb_elem_of in Hval. by apply (Hval (k, v)).
Qed.



Lemma scalar_dict_eq_refl (d : list (string * param)) :
  NoDup d.*1 → forallb (λ kv, is_scalar_param kv.2) d = true →
  forallb (λ kv, valid_param kv.2) d = true →
  py_assert_eq (VDict d) (VDict d) = Passed.
Proof.
  intros Hnd Hs Hval. simpl. rewrite Nat.eqb_refl. simpl.
  apply for_each_passed. intros [k p] Hin.
  simpl. rewrite (assoc_NoDup _ _ _ Hnd Hin).
  rewrite forallb_elem_of in Hs, Hval.
  specialize (Hs _ Hin). specialize (Hval _ Hin).
  destruct p as [s|]; [|done]. simpl. by rewrite scalar_eqb_refl.
Qed.

(** ** Dictionaries in registry order *)

Lemma assoc_Some_elem {V} (d : list (string * V)) k v :
  assoc k d = Some v → (k, v) ∈ d.
Proof.
  induction d as [|[k' v'] d IH]; simpl; [done|].
  destruct (String.eqb_spec k' k) as [->|_].
  - intros [= ->]. by left.
  - intros H. right. by apply IH.
Qed.

Lemma assoc_None_keys {V} (d : list (string * V)) k :
  assoc k d = None ↔ k ∉ keys d.
Proof.
  unfold keys. rewrite elem_of_list_to_set.
  induction d as [|[k' v'] d IH].
  - split; [intros _ H; inversion H | done].
  - rewrite fmap_cons, not_elem_of_cons. simpl.
    destruct (String.eqb_spec k' k) as [->|Hne]; [naive_solver|].
    rewrite IH. naive_solver.
Qed.

Lemma assoc_filter {V} (Q : string → Prop) `{∀ k, Decision (Q k)}
    (d : list (string * V)) k :
  assoc k (filter (λ kv, Q kv.1) d) = if decide (Q k) then assoc k d else None.
Proof.
  induction d as [|[k' v'] d IH]; [by destruct (decide _)|].
  destruct (decide (Q k')) as [Hk'|Hk'].
  - rewrite filter_cons_True by done. simpl. rewrite IH.
    destruct (String.eqb_spec k' k) as [->|_]; [|done].
    by destruct (decide (Q k)).
  - rewrite filter_cons_False by done. simpl. rewrite IH.
    destruct (String.eqb_spec k' k) as [->|_]; [|done].
    by destruct (decide (Q k)).
Qed.


Lemma keys_app {V} (d1 d2 : list (string * V)) :
  keys (d1 ++ d2) = keys d1 ∪ keys d2.
Proof. unfold keys. rewrite fmap_app. apply list_to_set_app_L. Qed.


(** The attributes of a constructed instance are the attributes it was
    constructed from. *)
Lemma assoc_filter_in {V} (l : list string) (d : list (string * V)) k :
  assoc k (filter (λ kv, kv.1 ∈ l) d)
  = if decide (k ∈ l) then assoc k d else None.
Proof. exact (assoc_filter (λ k, k ∈ l) d k). Qed.

Lemma assoc_filter_not_in {V} (l : list string) (d : list (string * V)) k :
  assoc k (filter (λ kv, kv.1 ∉ l) d)
  = if decide (k ∈ l) then None else assoc k d.
Proof.
  pose proof (assoc_filter (λ k, k ∉ l) d k) as H. simpl in H. rewrite H.
  destruct (decide (k ∈ l)); [rewrite decide_False | rewrite decide_True];
    auto.
Qed.

Lemma getattr_construct c attrs attr :
  getattr (construct c attrs) attr = assoc attr attrs.
Proof.
  unfold construct.
  destruct (subclass_of c "BaseModel") eqn:Hc; unfold getattr, isinstance;
    cbn [dict_of type_of model_extra]; rewrite Hc.
  2: by destruct (assoc attr attrs).
  change (Some (filter (λ kv : string * value, kv.1 ∉ model_fields c) attrs)
          ≫= λ e, assoc attr e)
    with (assoc attr (filter (λ kv, kv.1 ∉ model_fields c) attrs)).
  rewrite assoc_filter_in, assoc_filter_not_in.
  destruct (decide (attr ∈ model_fields c)); by destruct (assoc attr attrs).
Qed.

Lemma type_of_construct c attrs : type_of (construct c attrs) = c.
Proof. unfold construct. by destruct (subclass_of c "BaseModel"). Qed.




Lemma subclass_of_self c : subclass_of c (cname c) = true.
Proof. apply bool_decide_eq_true_2. by left. Qed.

Lemma compare_unfold fuel actual desired ign :
  compare_class_instances (S fuel) actual (VObj desired) ign
  = if negb (isinstance actual (cname (type_of desired)))
    then Raised AssertionError
    else match attribute_sets actual desired ign with
         | None => Raised AttributeError
         | Some (attributes, desired_attributes) =>
             if bool_decide (attributes = desired_attributes)
             then compare_attributes (compare_class_instances fuel)
                    actual desired (elements attributes)
             else Raised AssertionError
         end.
Proof. done. Qed.


Lemma keys_elem {V} (d : list (string * V)) k :
  k ∈ keys d ↔ ∃ v, (k, v) ∈ d.
Proof.
  unfold keys. rewrite elem_of_list_to_set, list_elem_of_fmap. split.
  - intros ([k' v] & -> & Hin). by exists v.
  - intros (v & Hin). by exists (k, v).
Qed.









Lemma excluded_backend c :
  subclass_of c "ModelBackendBase" = true → excluded c = backend_exclusions.
Proof. unfold excluded. by intros ->. Qed.


Section CodecProperties.

Variable registry : pyclass → option (list (string * codec_kind)).
Variable classes : string → option pyclass.
Variable supports_extension : pyclass → bool.

Abbreviation build_ := (build registry).
Abbreviation parse_ := (parse registry classes supports_extension).
Abbreviation valid_ := (valid_entity registry classes).
Abbreviation round_trips_ :=
  (round_trips registry classes supports_extension).
Abbreviation value_round_trips_ :=
  (value_round_trips registry classes supports_extension).
Abbreviation encoded_entry_ :=
  (encoded_entry registry classes supports_extension).







Lemma decode_form_obj fuel attr e o' :
  decode_form classes (parse_ fuel) attr e = inr (VObj o') →
  ∃ c' sub, parse_ fuel c' sub = inr o'.
Proof.
  destruct e as [| |sh n d|cols dts idx cells|es|disc sub]; simpl;
    try discriminate.
  - destruct (decode_array _ _ _ _); simpl; discriminate.
  - destruct (decode_columns _ _ _ _); simpl; discriminate.
  - destruct (mapM_r _ _); simpl; discriminate.
  - destruct (classes disc) as [c'|]; simpl; [|discriminate].
    destruct (parse_ fuel c' sub) as [|o''] eqn:Hp; simpl; [discriminate|].
    intros [= <-]. eauto.
Qed.

(** Whatever the document holds, the parser sets no excluded attribute,
    at any level. *)
Lemma parse_excluded_unset fuel c doc o :
  parse_ fuel c doc = inr o → excluded_unset o.
Proof.
  revert c doc o. induction fuel as [|fuel IH]; intros c doc o; [done|].
  simpl. destruct (registry c) as [reg|]; [|done]. simpl.
  destruct (mapM_r _ (expected_attributes c reg)) as [|attrs] eqn:Hattrs;
    [done|]. simpl.
  apply mapM_r_inr in Hattrs.
  set (decode_extra := λ kv : string * encoded,
         let* v := decode_form classes (parse_ fuel) kv.1 kv.2 in
         inr (kv.1, v)).
  destruct (if supports_extension c then _ else _) as [|extras] eqn:Hextras;
    [done|]. simpl.
  assert (∃ ux, ux ⊆ unexpected_attributes c reg doc
            ∧ Forall2 (λ x y, decode_extra x = inr y) ux extras)
    as (ux & Hux & HFextras).
  { destruct (supports_extension c).
    - exists (unexpected_attributes c reg doc). split; [done|].
      by apply mapM_r_inr.
    - exists []. split; [set_solver|].
      destruct (unexpected_attributes c reg doc); by simplify_eq. }
  intros [= <-]. constructor.
  - rewrite type_of_construct. intros k Hk.
    rewrite getattr_construct. apply assoc_None_keys.
    rewrite keys_app, elem_of_union. intros [Hin|Hin].
    + apply keys_elem in Hin as [v Hin].
      apply list_elem_of_lookup in Hin as [j Hj].
      destruct (Forall2_lookup_r _ _ _ _ _ Hattrs Hj) as (nk & Hnk & Hdec).
      apply list_elem_of_lookup_2, list_elem_of_filter in Hnk as [Hnk _].
      unfold decode_attribute in Hdec.
      destruct (of_option _ _); simpl in Hdec; [done|].
      destruct (decode_value _ _ _ _ _); simpl in Hdec; [done|].
      by simplify_eq.
    + apply keys_elem in Hin as [v Hin].
      apply list_elem_of_lookup in Hin as [j Hj].
      destruct (Forall2_lookup_r _ _ _ _ _ HFextras Hj) as (kv & Hkv & Hdec).
      apply list_elem_of_lookup_2, Hux, list_elem_of_filter in Hkv as [Hkv _].
      unfold decode_extra in Hdec.
      destruct (decode_form _ _ _ _); simpl in Hdec; [done|].
      simplify_eq. set_solver.
  - intros attr o' Hg. rewrite getattr_construct in Hg.
    apply assoc_Some_elem, elem_of_app in Hg as [Hin|Hin].
    + apply list_elem_of_lookup in Hin as [j Hj].
      destruct (Forall2_lookup_r _ _ _ _ _ Hattrs Hj) as (nk & _ & Hdec).
      unfold decode_attribute, decode_value in Hdec.
      destruct (of_option _ _) as [|e]; simpl in Hdec; [done|].
      destruct (bool_decide _); [|done].
      destruct (decode_form _ _ _ e) as [|v] eqn:Hform; simpl in Hdec; [done|].
      simplify_eq.
      destruct (decode_form_obj _ _ _ _ Hform) as (c' & sub & Hp).
      by eapply IH.
    + apply list_elem_of_lookup in Hin as [j Hj].
      destruct (Forall2_lookup_r _ _ _ _ _ HFextras Hj) as (kv & _ & Hdec).
      unfold decode_extra in Hdec.
      destruct (decode_form _ _ _ _) as [|v] eqn:Hform; simpl in Hdec; [done|].
      simplify_eq.
      destruct (decode_form_obj _ _ _ _ Hform) as (c' & sub & Hp).
      by eapply IH.
Qed.

(** Whatever the entity holds, no key of a document the encoder produces
    is excluded for the entity it encodes, at any level. *)
Lemma build_exclusions_respected fuel o doc :
  build_ fuel o = inr doc → exclusions_respected o doc.
Proof.
  revert o doc. induction fuel as [|fuel IH]; intros o doc; [done|].
  simpl. destruct (registry (type_of o)) as [reg|]; [|done]. simpl.
  destruct (self_check reg o); [|done].
  intros Hdoc%mapM_r_inr. constructor.
  - intros k Hk Hin. apply keys_elem in Hin as [e Hin].
    apply list_elem_of_lookup in Hin as [j Hj].
    destruct (Forall2_lookup_r _ _ _ _ _ Hdoc Hj) as (nk & Hnk & Henc).
    apply list_elem_of_lookup_2, list_elem_of_filter in Hnk as [Hnk _].
    unfold encode_attribute in Henc.
    destruct (of_option _ _); simpl in Henc; [done|].
    destruct (encode_value _ _ _); simpl in Henc; [done|].
    by simplify_eq.
  - intros attr o' disc sub Hg Hin.
    apply list_elem_of_lookup in Hin as [j Hj].
    destruct (Forall2_lookup_r _ _ _ _ _ Hdoc Hj) as (nk & _ & Henc).
    unfold encode_attribute in Henc.
    destruct (getattr o nk.1) as [v|] eqn:Hv; simpl in Henc; [|done].
    destruct (encode_value _ _ v) as [|e] eqn:He; simpl in Henc; [done|].
    injection Henc as Hn ->. rewrite Hn, Hg in Hv. injection Hv as <-.
    simpl in He.
    destruct (build_ fuel o') as [|sub'] eqn:Hb; simpl in He; [done|].
    injection He as _ <-. by apply IH.
Qed.

Lemma assoc_filter_excluded {V} c (d : list (string * V)) k :
  k ∉ excluded c →
  assoc k (filter (λ kv, kv.1 ∉ excluded c) d) = assoc k d.
Proof.
  intros Hk. pose proof (assoc_filter (λ k, k ∉ excluded c) d k) as H.
  simpl in H. rewrite H. by rewrite decide_True.
Qed.

Lemma unexpected_filter_excluded c reg (doc : document) :
  unexpected_attributes c reg (filter (λ kv, kv.1 ∉ excluded c) doc)
  = unexpected_attributes c reg doc.
Proof.
  unfold unexpected_attributes, document in *.
  induction doc as [|kv doc IH]; [done|].
  rewrite !filter_cons.
  destruct (decide (kv.1 ∉ excluded c)) as [Hk|Hk].
  - rewrite filter_cons. destruct (decide _); by rewrite IH.
  - rewrite IH. destruct (decide _) as [Hn|Hn]; [|done].
    destruct Hk. set_solver.
Qed.

(** The parser reads no excluded key: a document and the same document
    without the keys excluded for the entity are decoded alike. *)
Lemma parse_ignores_excluded fuel c doc :
  parse_ fuel c (filter (λ kv, kv.1 ∉ excluded c) doc) = parse_ fuel c doc.
Proof.
  destruct fuel as [|fuel]; [done|]. simpl.
  destruct (registry c) as [reg|]; [|done]. simpl.
  rewrite unexpected_filter_excluded.
  assert (mapM_r (decode_attribute classes (parse_ fuel)
                    (filter (λ kv, kv.1 ∉ excluded c) doc))
            (expected_attributes c reg)
          = mapM_r (decode_attribute classes (parse_ fuel) doc)
              (expected_attributes c reg)) as ->; [|done].
  apply mapM_r_ext. intros nk Hnk.
  apply list_elem_of_filter in Hnk as [Hnk _].
  unfold decode_attribute, document. by rewrite assoc_filter_excluded.
Qed.

(** ** Round trip *)


(** ** Exclusions *)

(** C3: exclusion is per entity type. Whatever is encoded, the document
    holds no key that is excluded for the entity it encodes, at any
    level, so the sub-document of a backend holds neither [stan_fit] nor
    [model]; whatever is decoded, the parser reads no excluded key (the
    document without them is decoded alike); and the decoded instance
    has no excluded attribute set, at any level, so a decoded backend
    has neither handle. *)
Theorem exclusions_enforced fuel :
  (∀ m doc,
     to_document registry fuel m = inr doc →
     exclusions_respected m doc
     ∧ ∀ attr b disc sub,
         getattr m attr = Some (VObj b) →
         isinstance b "ModelBackendBase" = true →
         (attr, ENested disc sub) ∈ doc →
         ("stan_fit" ∉ keys sub) ∧ ("model" ∉ keys sub))
  ∧ (∀ c doc,
       from_document registry classes supports_extension c fuel
         (filter (λ kv, kv.1 ∉ excluded c) doc)
       = from_document registry classes supports_extension c fuel doc)
  ∧ (∀ c doc m',
       from_document registry classes supports_extension c fuel doc
       = inr m' →
       excluded_unset m'
       ∧ ∀ attr b',
           getattr m' attr = Some (VObj b') →
           isinstance b' "ModelBackendBase" = true →
           getattr b' "stan_fit" = None ∧ getattr b' "model" = None).
Proof.
  split; [|split].
  - intros m doc Hdoc.
    pose proof (build_exclusions_respected _ _ _ Hdoc) as Hex.
    split; [done|].
    intros attr b disc sub Hg Hb Hin.
    destruct Hex as [m doc _ Hnest].
    destruct (Hnest _ _ _ _ Hg Hin) as [b sub Hk _].
    rewrite (excluded_backend _ Hb) in Hk.
    split; apply Hk; set_solver.
  - intros c doc. apply parse_ignores_excluded.
  - intros c doc m' Hm'.
    pose proof (parse_excluded_unset _ _ _ _ Hm') as Hun.
    split; [done|].
    intros attr b' Hg Hb.
    destruct Hun as [m' _ Hnest].
    destruct (Hnest _ _ Hg) as [b' Hk _].
    rewrite (excluded_backend _ Hb) in Hk.
    split; apply Hk; set_solver.
Qed.

End CodecProperties.

(** * The sample model *)

Module SampleProperties.

Import SampleModel.

Lemma sample_model_valid :
  valid_entity registry classes true 3 model = true.
Proof. by vm_compute. Qed.

(** Scenario S2: the document of the sample backend holds its parameter
    map and neither handle. *)
Example sample_backend_document :
  to_document registry 2 backend
  = inr [("fit_params",
          EParams [("alpha", EPlain (SFloat 0.5));
                   ("beta", EArray [3] "float"
                              [Finite 1; Finite 2; Finite 3])])].
Proof. by vm_compute. Qed.



Lemma exclusions_enforced_witness :
  ∃ doc m',
    to_document registry 3 model = inr doc
    ∧ exclusions_respected model doc
    ∧ from_document registry classes supports_extension Gloria 3 doc = inr m'
    ∧ excluded_unset m'.
Proof.
  destruct (exclusions_enforced registry classes supports_extension 3)
    as (Henc & Hflt & Hdec).
  destruct (to_document registry 3 model) as [e|doc] eqn:Hdoc;
    [by vm_compute in Hdoc|].
  exists doc.
  destruct (from_document registry classes supports_extension Gloria 3 doc)
    as [e|m'] eqn:Hm'.
  { vm_compute in Hdoc. injection Hdoc as <-. by vm_compute in Hm'. }
  exists m'. split; [done|]. split; [by apply Henc|].
  split; [done|]. by apply (Hdec Gloria doc).
Defined.

(** The document of the sample model holds the key [model], the name of
    one of its own attributes and of one of the two backend handles. *)
Lemma model_document_holds_excluded_name :
  ∃ doc,
    to_document registry 3 model = inr doc
    ∧ "model" ∈ keys doc
    ∧ "model" ∈ backend_exclusions.
Proof.
  eexists. split; [by vm_compute|].
  split; apply (bool_decide_unpack _); by vm_compute.
Qed.

End SampleProperties.

(** * Further properties of the checker *)

Lemma for_each_ext_in {A} (l : list A) (f g : A → outcome) :
  (∀ x, x ∈ l → f x = g x) → for_each l f = for_each l g.
Proof.
  induction l as [|x l IH]; intros H; simpl; [done|].
  rewrite (H x) by (by left). rewrite IH; [done|].
  intros y Hy. apply H. by right.
Qed.

Lemma attribute_sets_agree ign a a' d d' :
  agree_outside ign a a' → agree_outside ign d d' →
  attribute_sets a d ign = attribute_sets a' d' ign.
Proof.
  intros (Hta & Hfa & Hda & _) (Htd & Hfd & Hdd & _).
  unfold attribute_sets, isinstance. rewrite Hta.
  destruct (subclass_of (type_of a') "BaseModel"); [|by rewrite Hda, Hdd].
  destruct (field_names a), (field_names a'); simplify_eq/=; [|done].
  destruct (field_names d), (field_names d'); simplify_eq/=; [|done].
  congruence.
Qed.

Lemma attribute_sets_not_ignored a d ign A D attr :
  attribute_sets a d ign = Some (A, D) → attr ∈ A → attr ∉ ign.
Proof.
  unfold attribute_sets. destruct (isinstance a "BaseModel").
  - destruct (field_names a); simpl; [|done].
    destruct (field_names d); simpl; [|done].
    intros [= <- <-]. set_solver.
  - intros [= <- <-]. set_solver.
Qed.

(** The verdict is the same for two pairs that agree outside the ignore
    set. *)
Lemma compare_agree fuel a a' d d' ign :
  agree_outside ign a a' → agree_outside ign d d' →
  compare_class_instances fuel a (VObj d) ign
  = compare_class_instances fuel a' (VObj d') ign.
Proof.
  intros Ha Hd. destruct fuel as [|fuel]; [done|].
  rewrite !compare_unfold, <-(attribute_sets_agree ign a a' d d' Ha Hd).
  pose proof Ha as (Hta & _ & _ & Hga). pose proof Hd as (Htd & _ & _ & Hgd).
  unfold isinstance at 1 2. rewrite Hta, Htd.
  destruct (negb _); [done|].
  destruct (attribute_sets a d ign) as [[A D]|] eqn:Hs; [|done].
  case_bool_decide; [|done].
  unfold compare_attributes. apply for_each_ext_in. intros attr Hin.
  apply elem_of_elements in Hin.
  pose proof (attribute_sets_not_ignored _ _ _ _ _ _ Hs Hin) as Hni.
  by rewrite (Hga attr Hni), (Hgd attr Hni).
Qed.

(** X1: attributes in the ignore set are never read. Two calls whose
    arguments agree outside the ignore set (same classes, same names and
    same values there) end the same way, whatever the ignored attributes
    hold and whether they are set at all. *)
Theorem ignored_attributes_never_read fuel a a' d d' ign :
  agree_outside ign a a' → agree_outside ign d d' →
  compare_class_instances fuel a (VObj d) ign
  = compare_class_instances fuel a' (VObj d') ign.
Proof. apply compare_agree. Qed.

(** X2: the ignore set acts at the level it is given to and nowhere
    below. Two ignore sets that contain the same names of the two
    instances give the same verdict, so a name that only occurs in a
    nested model is not ignored there. *)
Theorem ignore_set_is_local fuel a d ign ign' :
  let pydantic := isinstance a "BaseModel" in
  (∀ n, n ∈ attribute_names pydantic a ∪ attribute_names pydantic d →
        (n ∈ ign ↔ n ∈ ign')) →
  compare_class_instances fuel a (VObj d) ign
  = compare_class_instances fuel a (VObj d) ign'.
Proof.
  intros pydantic Hign. destruct fuel as [|fuel]; [done|].
  rewrite !compare_unfold.
  assert (attribute_sets a d ign = attribute_sets a d ign') as ->; [|done].
  unfold attribute_sets. subst pydantic. unfold attribute_names in Hign.
  destruct (isinstance a "BaseModel").
  - unfold field_names.
    destruct (isinstance a "BaseModel"); [|done].
    destruct (model_extra a) as [ea|]; [|done]. simpl.
    destruct (isinstance d "BaseModel"); [|done].
    destruct (model_extra d) as [ed|]; [|done]. simpl in *.
    do 2 f_equal; apply set_eq; intros n; specialize (Hign n); set_solver.
  - do 2 f_equal; apply set_eq; intros n; specialize (Hign n); set_solver.
Qed.

(** X3: whether the loop over the attribute names passes does not depend
    on the order in which the set is iterated, nor on repetitions. *)
Theorem verdict_order_independent rec a d (l l' : list string) :
  (∀ attr, attr ∈ l ↔ attr ∈ l') →
  compare_attributes rec a d l = Passed
  ↔ compare_attributes rec a d l' = Passed.
Proof.
  intros Hl. unfold compare_attributes. rewrite !for_each_passed.
  split; intros H attr Hin; apply H; by apply Hl.
Qed.

(** X4: a pydantic model that does not allow extra fields has
    [model_extra] equal to [None], and [None.keys()] raises: such a model
    on either side never passes. *)
Theorem model_without_extras_never_passes fuel actual desired ign :
  isinstance actual "BaseModel" = true →
  model_extra actual = None ∨ model_extra desired = None →
  compare_class_instances fuel actual (VObj desired) ign ≠ Passed.
Proof.
  intros Hbm Hnone. destruct fuel as [|fuel]; [done|].
  rewrite compare_unfold. destruct (negb _); [done|].
  unfold attribute_sets, field_names. rewrite Hbm.
  destruct Hnone as [-> | Hd]; [done|].
  destruct (model_extra actual); [|done]. simpl.
  destruct (isinstance desired "BaseModel"); [|done].
  by rewrite Hd.
Qed.

(** X5: a check that passes has read every attribute name outside the
    ignore set on both instances: each is set on [actual] and on
    [desired], declared fields of a pydantic model included. *)
Theorem passing_check_finds_every_attribute fuel actual desired ign attr :
  compare_class_instances fuel actual (VObj desired) ign = Passed →
  attr ∉ ign →
  attr ∈ attribute_names (isinstance actual "BaseModel") actual
  ∨ attr ∈ attribute_names (isinstance actual "BaseModel") desired →
  is_Some (getattr actual attr) ∧ is_Some (getattr desired attr).
Proof.
  intros Hpass Hni Hin.
  apply compare_passed_inv in Hpass as (fuel' & _ & _ & Heq & Hall).
  destruct (Hall attr) as (av & dv & -> & -> & _); [set_solver|done|].
  by split.
Qed.

Lemma unique_labels_of_singletons (cols : list (string * Column)) :
  (∀ c, c ∈ cols → ∃ x, filter (λ y : string * Column, y.1 = c.1) cols = [x]) →
  NoDup cols.*1.
Proof.
  induction cols as [|c cols IH]; intros H; [constructor|].
  rewrite fmap_cons. destruct (H c) as [x Hx]; [by left|].
  rewrite filter_cons_True in Hx by done. injection Hx as _ Hnil.
  assert (c.1 ∉ cols.*1) as Hc.
  { intros Hin. apply list_elem_of_fmap in Hin as (y & Hy & Hin).
    by apply (filter_nil_not_elem_of _ _ y Hnil). }
  constructor; [done|]. apply IH. intros y Hy.
  destruct (H y) as [x' Hx']; [by right|].
  rewrite filter_cons_False in Hx'; [by exists x'|].
  intros Heq. apply Hc. rewrite Heq. by apply list_elem_of_fmap_2.
Qed.

Lemma kind_loop_outcome f (labels : list string) e :
  (∀ col, col ∈ labels → col ∈ (df_columns f).*1) →
  for_each labels (λ col,
    match column_kind f col, column_kind f col with
    | inr ka, inr kd => assert (bool_decide (ka = kd))
    | inl e, _ => Raised e
    | _, inl e => Raised e
    end) = Raised e →
  e = AttributeError.
Proof.
  induction labels as [|col labels IH]; intros Hsub; simpl; [done|].
  assert (col ∈ (df_columns f).*1) as Hcol by (apply Hsub; by left).
  apply list_elem_of_fmap in Hcol as (c & Hc & Hin).
  unfold column_kind at 1 2.
  destruct (filter (λ c0 : string * Column, c0.1 = col) (df_columns f))
    as [|x [|]] eqn:Hf.
  - by destruct (filter_nil_not_elem_of _ _ c Hf).
  - rewrite bool_decide_eq_true_2 by done. simpl.
    apply IH. intros y Hy. apply Hsub. by right.
  - by intros [= <-].
Qed.

(** X6: a table whose column labels are not unique cannot pass, not even
    against an equal table: selecting a repeated label yields a table,
    which has no [dtype], and the check ends in [AttributeError]. With
    unique labels a table passes against an equal one. *)
Theorem frame_self_comparison rec attr f :
  (compare_value rec attr (VFrame f) (VFrame f) = Passed
   ↔ NoDup (df_columns f).*1)
  ∧ (¬ NoDup (df_columns f).*1 →
     compare_value rec attr (VFrame f) (VFrame f) = Raised AttributeError).
Proof.
  change (compare_value rec attr (VFrame f) (VFrame f))
    with (compare_frames f (VFrame f)).
  assert (compare_frames f (VFrame f) = Passed → NoDup (df_columns f).*1)
    as Hnec.
  { unfold compare_frames.
    rewrite and_then_passed, for_each_passed. intros [_ Hloop].
    apply unique_labels_of_singletons. intros c Hc.
    assert (c.1 ∈ (df_columns f).*1) as Hl by (by apply list_elem_of_fmap_2).
    apply Hloop in Hl. unfold column_kind in Hl.
    destruct (filter _ (df_columns f)) as [|x [|]]; try done. by exists x. }
  split; [split; [done | apply compare_frames_refl]|].
  intros Hdup.
  destruct (compare_frames f (VFrame f)) as [|e] eqn:Hc; [by destruct Hdup; auto|].
  f_equal. unfold compare_frames in Hc. rewrite frame_equal_refl in Hc.
  by apply (kind_loop_outcome f (df_columns f).*1).
Qed.

(** X7: under [fit_params] only the keys of [actual] are looked up in
    [desired]. Two [desired] dictionaries that hold the same entries for
    those keys give the same verdict, and an empty [actual] dictionary
    passes against any value. *)
Theorem fit_params_reads_actual_keys_only rec
    (items d d' : list (string * param)) :
  ((∀ k, k ∈ keys items → assoc k d = assoc k d') →
   compare_value rec "fit_params" (VDict items) (VDict d)
   = compare_value rec "fit_params" (VDict items) (VDict d'))
  ∧ (∀ v, compare_value rec "fit_params" (VDict []) v = Passed).
Proof.
  split; [|done]. intros H.
  change (compare_fit_params items (VDict d)
          = compare_fit_params items (VDict d')).
  unfold compare_fit_params. apply for_each_ext_in. intros [k v] Hin.
  simpl. rewrite (H k); [done|]. apply keys_elem. eauto.
Qed.


(** X9: the registry test composes with the checker. When the fitted and
    the deserialized model both pass [test_gloria_attribute_equivalence]
    against one registry, the two name sets the checker builds for them
    are both the key set of the registry, so its assertion on the names
    holds. *)
Theorem registry_test_settles_names {V} (G : list (string * V)) m m' :
  test_gloria_attribute_equivalence G m = Passed →
  test_gloria_attribute_equivalence G m' = Passed →
  attribute_sets m' m ∅ = Some (keys G, keys G).
Proof.
  unfold test_gloria_attribute_equivalence, attribute_sets.
  destruct (field_names m) as [A|] eqn:Hm; [|done].
  destruct (field_names m') as [A'|] eqn:Hm'; [|done].
  rewrite !assert_passed, !bool_decide_eq_true. intros -> ->.
  unfold field_names in Hm'.
  destruct (isinstance m' "BaseModel"); [|done]. simpl.
  by rewrite !difference_empty_L.
Qed.

(** X10: the same for the backend test: when both models pass
    [test_backend_attribute_equivalence] against one registry, the name
    sets the checker builds for the two backends, with the two handles
    ignored, are both the key set of the registry. *)
Theorem backend_test_settles_names {V} (B : list (string * V)) m m' b b' :
  getattr m "model_backend" = Some (VObj b) →
  getattr m' "model_backend" = Some (VObj b') →
  isinstance b' "BaseModel" = false →
  test_backend_attribute_equivalence B m = Passed →
  test_backend_attribute_equivalence B m' = Passed →
  attribute_sets b' b backend_exclusions = Some (keys B, keys B).
Proof.
  intros Hb Hb' Hbm.
  unfold test_backend_attribute_equivalence, attribute_sets,
    backend_exclusions.
  rewrite Hb, Hb', Hbm, !assert_passed, !bool_decide_eq_true.
  intros H1 H2. by rewrite <-H1, <-H2.
Qed.

(** X11: plain attributes are compared with [==], which follows the
    numeric tower: two numeric scalars pass exactly when their values are
    equal, whether they are [bool], [int] or [float]. *)
Theorem scalars_compared_by_value rec attr x y p q :
  attr ≠ "fit_params" →
  as_number x = Some p → as_number y = Some q →
  compare_value rec attr (VScalar x) (VScalar y) = Passed ↔ (p == q)%Q.
Proof.
  intros Hattr Hx Hy. simpl.
  destruct (String.eqb_spec attr "fit_params") as [|_]; [done|].
  simpl. rewrite assert_passed. unfold scalar_eqb. rewrite Hx, Hy.
  apply Qeq_bool_iff.
Qed.

(** X12: the name [fit_params] is reserved for a dictionary. An instance
    on which that attribute, not ignored, is a scalar or a list never
    passes: [items] is called on it. *)
Theorem fit_params_must_be_a_dictionary fuel actual desired ign v :
  "fit_params" ∉ ign →
  "fit_params" ∈ attribute_names (isinstance actual "BaseModel") actual →
  getattr actual "fit_params" = Some v →
  (∃ s, v = VScalar s) ∨ (∃ l, v = VList l) →
  compare_class_instances fuel actual (VObj desired) ign ≠ Passed.
Proof.
  intros Hni Hin Hg Hv Hpass.
  apply compare_passed_inv in Hpass as (fuel' & _ & _ & _ & Hall).
  destruct (Hall "fit_params" Hin Hni) as (av & dv & Hav & _ & Hcmp).
  rewrite Hg in Hav. injection Hav as <-.
  by destruct Hv as [[s ->]|[l ->]].
Qed.

(** X13: arrays inside a dictionary are only handled under the name
    [fit_params]. Under any other name two separately built dictionaries
    are compared with [==], and an array entry passes only when the two
    arrays broadcast to a single, equal element; arrays with more
    elements raise. *)
Theorem dict_arrays_need_fit_params rec attr
    (x y : list (string * param)) k a b :
  attr ≠ "fit_params" →
  compare_value rec attr (VDict x) (VDict y) = Passed →
  (k, PArray a) ∈ x → assoc k y = Some (PArray b) →
  ∃ p q, broadcast_pair a b = Some ([Finite p], [Finite q]) ∧ (p == q)%Q.
Proof.
  intros Hattr Hpass Hin Hy. simpl in Hpass.
  destruct (String.eqb_spec attr "fit_params") as [|_]; [done|].
  apply and_then_passed in Hpass as [_ Hloop].
  rewrite for_each_passed in Hloop. apply Hloop in Hin.
  simpl in Hin. rewrite Hy in Hin. simpl in Hin.
  unfold array_eq_truth in Hin.
  destruct (broadcast_pair a b) as [[[|p [|]] [|q [|]]]|]; try done.
  destruct p as [p|], q as [q|]; try done.
  exists p, q. split; [done|]. by apply Qeq_bool_iff, assert_passed.
Qed.

Lemma series_equal_refl s : series_equal true s s = true.
Proof.
  unfold series_equal, index_equal, values_equal.
  rewrite !bool_decide_eq_true_2 by done.
  rewrite (forallb2_refl _ _ pd_equal_refl).
  by rewrite (forallb2_refl _ _ (cell_equal_refl _)).
Qed.

Lemma param_same_refl (d : list (string * param)) :
  Forall2 (λ x y, x.1 = y.1 ∧ param_same x.2 y.2) d d.
Proof.
  apply Forall_Forall2_diag, Forall_forall.
  intros [k [s|a]] _; by repeat split.
Qed.

Lemma attribute_sets_diag o ign A D :
  attribute_sets o o ign = Some (A, D) → D = A.
Proof.
  unfold attribute_sets. destruct (isinstance o "BaseModel").
  - destruct (field_names o); simpl; [|done]. by intros [= <- <-].
  - by intros [= <- <-].
Qed.

Lemma allclose_self a : is_Some (allclose a a).
Proof.
  unfold allclose, broadcast_pair. rewrite broadcast_shapes_refl. simpl.
  destruct (broadcast_to_refl (shape a) (data a)) as [r ->]. simpl. by eexists.
Qed.

(** X14: which instances the checker accepts against an equal copy of
    themselves. It is enough that, outside the ignore set and at every
    level, each attribute name is set, arrays have a numeric dtype,
    scalars, sequences and dictionaries hold no [nan], column labels and
    dictionary keys are unique, arrays inside a dictionary stand under
    [fit_params] only, nothing but a dictionary stands under that name,
    and every nested instance is a pydantic model with extra fields or a
    backend. *)
Theorem self_comparison_passes fuel o ign :
  self_comparable fuel o ign = true →
  compare_class_instances fuel o (VObj o) ign = Passed.
Proof.
  revert o ign. induction fuel as [|fuel IH]; intros o ign; [done|].
  simpl self_comparable. rewrite compare_unfold.
  unfold isinstance at 1. rewrite subclass_of_self. simpl.
  destruct (attribute_sets o o ign) as [[A D]|] eqn:Hs; [|done].
  rewrite (attribute_sets_diag _ _ _ _ Hs), bool_decide_eq_true_2 by done.
  rewrite forallb_elem_of. intros Hall.
  unfold compare_attributes. apply for_each_passed. intros attr Hin.
  apply Hall in Hin.
  destruct (getattr o attr) as [v|]; [|done].
  destruct v as [s|l|a|s|f|d|n]; simpl in Hin |- *.
  - apply andb_true_iff in Hin as [Hfin Hname].
    apply negb_true_iff in Hname. rewrite Hname. simpl.
    by rewrite scalar_eqb_refl.
  - apply andb_true_iff in Hin as [Hfin Hname].
    apply negb_true_iff in Hname. rewrite Hname. simpl.
    rewrite forallb2_refl_in; [done|].
    intros x Hx. apply scalar_eqb_refl.
    rewrite forallb_elem_of in Hfin. by apply Hfin.
  - unfold call_allclose. simpl. rewrite Hin. simpl.
    by destruct (allclose_self a) as [b ->].
  - by rewrite series_equal_refl.
  - apply bool_decide_eq_true in Hin.
    by apply compare_frames_refl.
  - apply andb_true_iff in Hin as [[Hnd Hval]%andb_true_iff Hname].
    apply bool_decide_eq_true in Hnd.
    destruct (String.eqb attr "fit_params").
    + apply compare_fit_params_same; [apply param_same_refl | done..].
    + simpl in Hname. by apply scalar_dict_eq_refl.
  - destruct (isinstance n "BaseModel"); [by apply IH|].
    destruct (isinstance n "ModelBackendBase"); [by apply IH | done].
Qed.

(** ** The further properties on sample instances *)

Module ExtraSamples.

Import Samples MoreSamples.

Lemma backends_agree h h' (rest : list (string * value)) :
  agree_outside backend_exclusions
    (Instance Backend None (("stan_fit", h) :: rest))
    (Instance Backend None (("stan_fit", h') :: rest)).
Proof.
  split; [done|]. split; [done|]. split; [done|].
  intros attr Hni. unfold getattr. cbn [assoc dict_of].
  destruct (String.eqb_spec "stan_fit" attr) as [<-|_]; [|done].
  destruct Hni. unfold backend_exclusions. set_solver.
Qed.

Lemma ignored_attributes_never_read_witness :
  compare_class_instances 2 (fitted_backend "fit 1")
    (VObj (fitted_backend "fit 1")) backend_exclusions
  = compare_class_instances 2 (fitted_backend "fit 2")
      (VObj (fitted_backend "fit 3")) backend_exclusions.
Proof.
  apply (ignored_attributes_never_read 2 (fitted_backend "fit 1")
           (fitted_backend "fit 2") (fitted_backend "fit 1")
           (fitted_backend "fit 3") backend_exclusions);
    apply backends_agree.
Defined.

Lemma ignore_set_is_local_witness :
  compare_class_instances 2 (with_x (VScalar (SInt 0)))
    (VObj (with_x (VScalar (SInt 0)))) ∅
  = compare_class_instances 2 (with_x (VScalar (SInt 0)))
      (VObj (with_x (VScalar (SInt 0)))) {[ "stan_fit" ]}.
Proof.
  apply (ignore_set_is_local 2 (with_x (VScalar (SInt 0)))
           (with_x (VScalar (SInt 0))) ∅ {[ "stan_fit" ]}).
  intros n Hn.
  change (isinstance (with_x (VScalar (SInt 0))) "BaseModel") with true in Hn.
  unfold attribute_names, keys, with_x in Hn.
  cbn [type_of model_extra model_fields Config default fmap list_fmap] in Hn.
  assert (n = "x") as -> by set_solver.
  set_solver.
Defined.

Lemma verdict_order_independent_witness :
  let a := Instance Base None
             [("p", VScalar (SInt 1)); ("q", VScalar (SInt 2))] in
  compare_attributes (λ _ _ _, Passed) a a ["p"; "q"] = Passed
  ↔ compare_attributes (λ _ _ _, Passed) a a ["q"; "p"; "q"] = Passed.
Proof.
  intros a.
  apply (verdict_order_independent (λ _ _ _, Passed) a a
           ["p"; "q"] ["q"; "p"; "q"]).
  set_solver.
Defined.

Lemma model_without_extras_never_passes_witness :
  let m := Instance Config None [("x", VScalar (SInt 0))] in
  compare_class_instances 2 m (VObj m) ∅ ≠ Passed.
Proof.
  intros m. apply (model_without_extras_never_passes 2 m m ∅).
  - by vm_compute.
  - by left.
Defined.

Lemma passing_check_finds_every_attribute_witness :
  let m := with_x (VScalar (SInt 0)) in
  is_Some (getattr m "x") ∧ is_Some (getattr m "x").
Proof.
  intros m. apply (passing_check_finds_every_attribute 2 m m ∅ "x").
  - by vm_compute.
  - set_solver.
  - left. apply (bool_decide_unpack _). by vm_compute.
Defined.

Lemma frame_self_comparison_witness :
  compare_value (λ _ _ _, Passed) "history" (VFrame repeated_labels)
    (VFrame repeated_labels) = Raised AttributeError.
Proof.
  apply (frame_self_comparison (λ _ _ _, Passed) "history" repeated_labels).
  intros H. by apply (bool_decide_pack _) in H.
Defined.

Lemma fit_params_reads_actual_keys_only_witness :
  let items := [("alpha", PScalar (SFloat 0.5))] in
  compare_value (λ _ _ _, Passed) "fit_params" (VDict items) (VDict items)
  = compare_value (λ _ _ _, Passed) "fit_params" (VDict items)
      (VDict (items ++ [("beta", PScalar (SInt 1))])).
Proof.
  intros items.
  apply (fit_params_reads_actual_keys_only (λ _ _ _, Passed) items items
           (items ++ [("beta", PScalar (SInt 1))])).
  intros k Hk. unfold keys, items in Hk.
  cbn [fmap list_fmap fst] in Hk.
  assert (k = "alpha") as -> by set_solver.
  done.
Defined.


Lemma registry_test_settles_names_witness :
  attribute_sets SampleModel.model_reordered SampleModel.model ∅
  = Some (keys SampleModel.GLORIA_ATTRIBUTES,
          keys SampleModel.GLORIA_ATTRIBUTES).
Proof.
  apply (registry_test_settles_names SampleModel.GLORIA_ATTRIBUTES
           SampleModel.model SampleModel.model_reordered);
    by vm_compute.
Defined.

Lemma backend_test_settles_names_witness :
  attribute_sets SampleModel.backend SampleModel.backend backend_exclusions
  = Some (keys SampleModel.BACKEND_ATTRIBUTES,
          keys SampleModel.BACKEND_ATTRIBUTES).
Proof.
  apply (backend_test_settles_names SampleModel.BACKEND_ATTRIBUTES
           SampleModel.model SampleModel.model_reordered
           SampleModel.backend SampleModel.backend);
    by vm_compute.
Defined.

Lemma scalars_compared_by_value_witness :
  compare_value (λ _ _ _, Passed) "n_changepoints"
    (VScalar (SInt 3)) (VScalar (SFloat 3)) = Passed
  ↔ (inject_Z 3 == 3)%Q.
Proof.
  apply (scalars_compared_by_value (λ _ _ _, Passed) "n_changepoints"
           (SInt 3) (SFloat 3) (inject_Z 3) 3%Q); done.
Defined.

Lemma fit_params_must_be_a_dictionary_witness :
  let b := Instance Backend None [("fit_params", VScalar SNone)] in
  compare_class_instances 2 b (VObj b) backend_exclusions ≠ Passed.
Proof.
  intros b.
  apply (fit_params_must_be_a_dictionary 2 b b backend_exclusions
           (VScalar SNone)).
  - unfold backend_exclusions. set_solver.
  - apply (bool_decide_unpack _). by vm_compute.
  - done.
  - left. by exists SNone.
Defined.

Lemma dict_arrays_need_fit_params_witness :
  ∃ p q, broadcast_pair (vector_array [1%Q]) (vector_array [1%Q])
         = Some ([Finite p], [Finite q]) ∧ (p == q)%Q.
Proof.
  apply (dict_arrays_need_fit_params (λ _ _ _, Passed) "priors"
           [("scale", PArray (vector_array [1%Q]))]
           [("scale", PArray (vector_array [1%Q]))]
           "scale" (vector_array [1%Q]) (vector_array [1%Q])).
  - done.
  - by vm_compute.
  - by left.
  - done.
Defined.

(** Two entries with two elements each: the comparison raises. *)
Example dict_arrays_raise :
  compare_value (λ _ _ _, Passed) "priors"
    (VDict [("scale", PArray (vector_array [1; 2]%Q))])
    (VDict [("scale", PArray (vector_array [1; 2]%Q))])
  = Raised ValueError.
Proof. by vm_compute. Qed.

Lemma self_comparison_passes_witness :
  compare_class_instances 3 SampleModel.model (VObj SampleModel.model) ∅
  = Passed.
Proof.
  apply (self_comparison_passes 3 SampleModel.model ∅). by vm_compute.
Defined.

End ExtraSamples.
